(** * CartPage: the discount evaluator, stock availability and selection
      widgets of [src/refactoring3/components/CartPage.tsx]

    The page component is a thin layer over three small computations
    ([getMaxDiscount], [getRemainingStock], [getAppliedDiscount]) and two
    selection widgets whose change handlers index an array by [parseInt] of
    the chosen option value.  This file embeds those computations and the
    parts of the rendered tree that depend on them, and proves the properties
    the specification states about them.

    Number model.  A TypeScript [number] that counts things (stock,
    quantities, thresholds, prices, coupon values, array positions) is
    modelled by the integer it denotes ([Z]); a discount rate is modelled by
    the rational it denotes, in canonical form ([Qc]), so that two equal
    rates are the same value, as two equal JS numbers are.  [NaN], the
    infinities, the sign of zero and the rounding of IEEE doubles are outside
    this model: comparison and [Math.max] are exact on doubles, and the
    remaining arithmetic ([-], [+ 1], [- 1]) is exact on integers below
    2^53.  Where a property depends on what the code does with [NaN], it is
    stated on module [WithNaN], which embeds the same computations on
    numbers that may be [NaN]; the two embeddings agree on ordinary
    numbers ([getMaxDiscount_lift], [getAppliedDiscount_lift],
    [getRemainingStock_lift]). *)

From Stdlib Require Import ZArith QArith Qcanon List Bool Ascii String
  Decimal DecimalString DecimalPos DecimalZ Permutation Lia.
Import ListNotations.

Local Open Scope string_scope.
Local Open Scope Z_scope.

(** ** Data model ([../../types.ts], as the component uses it) *)

Module Discount.
Record t : Type := mk { quantity : Z; rate : Qc }.
End Discount.

Module Product.
Record t : Type := mk {
  id : string;
  name : string;
  price : Z;
  stock : Z;
  discounts : list Discount.t
}.
End Product.

Module CartItem.
Record t : Type := mk { product : Product.t; quantity : Z }.
End CartItem.

(** ** [Math.max] on two rates *)

Definition Math_max (a b : Qc) : Qc :=
  if Qle_bool a b then b else a.

(** ** Discount evaluator *)

(** [discounts.reduce((max, discount) => Math.max(max, discount.rate), 0)] *)
Definition getMaxDiscount (discounts : list Discount.t) : Qc :=
  fold_left (fun max discount => Math_max max (Discount.rate discount))
            discounts (Q2Qc 0).

(** One turn of the [for (const discount of discounts)] loop of
    [getAppliedDiscount], on the running value of [appliedDiscount]. *)
Definition applyTier (quantity : Z) (appliedDiscount : Qc)
    (discount : Discount.t) : Qc :=
  if quantity >=? Discount.quantity discount
  then Math_max appliedDiscount (Discount.rate discount)
  else appliedDiscount.

Definition getAppliedDiscount (item : CartItem.t) : Qc :=
  let discounts := Product.discounts (CartItem.product item) in
  let quantity := CartItem.quantity item in
  fold_left (applyTier quantity) discounts (Q2Qc 0).

(** ** Stock availability *)

(** [cart.find((item) => item.product.id === product.id)] *)
Definition findCartItem (cart : list CartItem.t) (product : Product.t)
    : option CartItem.t :=
  find (fun item =>
          String.eqb (Product.id (CartItem.product item)) (Product.id product))
       cart.

(** [cartItem?.quantity || 0]: [undefined] when there is no line, and the
    falsy quantity [0] falls through to the right operand. *)
Definition quantityOrZero (cartItem : option CartItem.t) : Z :=
  match cartItem with
  | Some item => if CartItem.quantity item =? 0 then 0 else CartItem.quantity item
  | None => 0
  end.

Definition getRemainingStock (cart : list CartItem.t) (product : Product.t) : Z :=
  let cartItem := findCartItem cart product in
  Product.stock product - quantityOrZero cartItem.

(** ** Strings and numbers in templates and attributes

    A JS string is modelled by the bytes of its UTF-8 encoding. *)

(** [`${n}`] and the [value={i}] attribute: the decimal numeral of an integer
    (what Number::toString gives for integers of magnitude below 10^21). *)
Definition Number_toString (n : Z) : string :=
  NilZero.string_of_int (Z.to_int n).

Definition byte (c : ascii) : Z := Z.of_N (N_of_ascii c).

(** StrWhiteSpaceChar of ECMAScript: TAB, LF, VT, FF, CR, SP, and below the
    UTF-8 encodings of U+00A0, U+1680, U+2000..U+200A, U+2028, U+2029, U+202F,
    U+205F, U+3000 and U+FEFF. *)
Definition isWhiteSpace1 (c : ascii) : bool :=
  let b := byte c in ((9 <=? b) && (b <=? 13)) || (b =? 32).

Definition isWhiteSpace2 (c1 c2 : ascii) : bool :=
  (byte c1 =? 194) && (byte c2 =? 160).

Definition isWhiteSpace3 (c1 c2 c3 : ascii) : bool :=
  let b1 := byte c1 in
  let b2 := byte c2 in
  let b3 := byte c3 in
  ((b1 =? 225) && (b2 =? 154) && (b3 =? 128))
  || ((b1 =? 226) && (b2 =? 128)
      && (((128 <=? b3) && (b3 <=? 138)) || (b3 =? 168) || (b3 =? 169) || (b3 =? 175)))
  || ((b1 =? 226) && (b2 =? 129) && (b3 =? 159))
  || ((b1 =? 227) && (b2 =? 128) && (b3 =? 128))
  || ((b1 =? 239) && (b2 =? 187) && (b3 =? 191)).

Fixpoint trimStart (s : string) : string :=
  match s with
  | String c1 s1 =>
      if isWhiteSpace1 c1 then trimStart s1
      else match s1 with
           | String c2 s2 =>
               if isWhiteSpace2 c1 c2 then trimStart s2
               else match s2 with
                    | String c3 s3 =>
                        if isWhiteSpace3 c1 c2 c3 then trimStart s3 else s
                    | EmptyString => s
                    end
           | EmptyString => s
           end
  | EmptyString => s
  end.

(** The value of [c] as a digit of the given radix, if it is one. *)
Definition digitValue (radix : Z) (c : ascii) : option Z :=
  let b := byte c in
  let v := if (48 <=? b) && (b <=? 57) then Some (b - 48)
           else if (97 <=? b) && (b <=? 122) then Some (b - 87)
           else if (65 <=? b) && (b <=? 90) then Some (b - 55)
           else None in
  match v with
  | Some d => if d <? radix then Some d else None
  | None => None
  end.

(** The longest prefix of radix digits, read most significant first;
    [None] as long as no digit has been read. *)
Fixpoint parseDigits (radix : Z) (s : string) (acc : option Z) : option Z :=
  match s with
  | String c s' =>
      match digitValue radix c with
      | Some d =>
          parseDigits radix s'
            (Some (match acc with Some a => a * radix + d | None => d end))
      | None => acc
      end
  | EmptyString => acc
  end.

Definition stripSign (s : string) : Z * string :=
  match s with
  | String c s' =>
      if byte c =? 45 then (-1, s')
      else if byte c =? 43 then (1, s')
      else (1, s)
  | EmptyString => (1, s)
  end.

Definition stripPrefix (s : string) : Z * string :=
  match s with
  | String c1 (String c2 s') =>
      if (byte c1 =? 48) && ((byte c2 =? 120) || (byte c2 =? 88))
      then (16, s') else (10, s)
  | _ => (10, s)
  end.

(** [parseInt(string)] with no radix argument, after ECMAScript: [None] is
    [NaN].  The integer is exact here; the double that JS returns rounds it
    only beyond 2^53, far above any array length. *)
Definition parseInt (s : string) : option Z :=
  let (sign, s1) := stripSign (trimStart s) in
  let (radix, s2) := stripPrefix s1 in
  match parseDigits radix s2 None with
  | Some mathInt => Some (sign * mathInt)
  | None => None
  end.

(** [xs[index]] for a number [index]: [None] is [undefined], which is what
    the keys [NaN], a negative number or a position past the end give. *)
Definition arrayGet {A : Type} (xs : list A) (index : option Z) : option A :=
  match index with
  | Some i => if i <? 0 then None else nth_error xs (Z.to_nat i)
  | None => None
  end.

(** [xs.map((x, i) => f x i)] *)
Fixpoint mapFrom {A B : Type} (f : A -> Z -> B) (i : Z) (xs : list A) : list B :=
  match xs with
  | [] => []
  | x :: xs' => f x i :: mapFrom f (i + 1) xs'
  end.

Definition mapi {A B : Type} (f : A -> Z -> B) (xs : list A) : list B :=
  mapFrom f 0 xs.

(** ** Memberships and coupons *)

Module Membership.
Record t : Type := mk { name : string; code : string; discountValue : Z }.
End Membership.

(** [discountType] is kept as the string the component compares with
    ['amount']. *)
Module Coupon.
Record t : Type := mk {
  name : string;
  code : string;
  discountType : string;
  discountValue : Z
}.
End Coupon.

(** ** The rendered tree, as far as the properties below read it *)

(** What a click or a selection asks of the Cart Aggregator ([useCart]). *)
Inductive CartRequest : Type :=
| addToCart (product : Product.t)
| removeFromCart (productId : string)
| updateQuantity (productId : string) (newQuantity : Z)
| applyMembership (membership : option Membership.t)
| applyCoupon (coupon : option Coupon.t).

Record Button : Type := mkButton {
  onClick : CartRequest;
  className : string;
  disabled : bool;
  label : string
}.

Record ProductCard : Type := mkProductCard {
  card_key : string;
  card_remainingStock : Z;
  card_maxDiscount : option Qc;
  card_button : Button
}.

(** The body of [filteredProducts.map((product) => ...)]. *)
Definition renderProductCard (cart : list CartItem.t) (product : Product.t)
    : ProductCard :=
  let remainingStock := getRemainingStock cart product in
  {| card_key := Product.id product;
     card_remainingStock := remainingStock;
     card_maxDiscount :=
       if (Z.of_nat (List.length (Product.discounts product)) >? 0)
       then Some (getMaxDiscount (Product.discounts product)) else None;
     card_button :=
       {| onClick := addToCart product;
          className :=
            "w-full rounded px-3 py-1 " ++
            (if remainingStock >? 0
             then "bg-blue-500 text-white hover:bg-blue-600"
             else "cursor-not-allowed bg-gray-300 text-gray-500");
          disabled := remainingStock <=? 0;
          label := if remainingStock >? 0 then "장바구니에 추가" else "품절" |} |}.

Definition catalogPane (cart : list CartItem.t) (filteredProducts : list Product.t)
    : list ProductCard :=
  map (renderProductCard cart) filteredProducts.

Record CartLine : Type := mkCartLine {
  line_key : string;
  line_appliedDiscount : Qc;
  line_decrement : Button;
  line_increment : Button;
  line_delete : Button
}.

(** The body of [cart.map((item) => ...)]. *)
Definition renderCartLine (item : CartItem.t) : CartLine :=
  let appliedDiscount := getAppliedDiscount item in
  let productId := Product.id (CartItem.product item) in
  {| line_key := productId;
     line_appliedDiscount := appliedDiscount;
     line_decrement :=
       {| onClick := updateQuantity productId (CartItem.quantity item - 1);
          className := "mr-1 rounded bg-gray-300 px-2 py-1 text-gray-800 hover:bg-gray-400";
          disabled := false;
          label := "-" |};
     line_increment :=
       {| onClick := updateQuantity productId (CartItem.quantity item + 1);
          className := "mr-1 rounded bg-gray-300 px-2 py-1 text-gray-800 hover:bg-gray-400";
          disabled := false;
          label := "+" |};
     line_delete :=
       {| onClick := removeFromCart productId;
          className := "rounded bg-red-500 px-2 py-1 text-white hover:bg-red-600";
          disabled := false;
          label := "삭제" |} |}.

Definition cartPane (cart : list CartItem.t) : list CartLine :=
  map renderCartLine cart.

(** ** Selection widgets *)

Record SelectOption : Type := mkOption { value : string; text : string }.

(** [memberships[parseInt(e.target.value)] || null]: the elements are
    objects, hence truthy, so [||] replaces exactly [undefined]; [None] is
    the [null] handed to the callback.  [targetValue] is [e.target.value]. *)
Definition ApplyMembership_handleChange {R : Type}
    (memberships : list Membership.t)
    (onMembershipChange : option Membership.t -> R)
    (targetValue : string) : R :=
  onMembershipChange (arrayGet memberships (parseInt targetValue)).

Definition ApplyMembership_options (memberships : list Membership.t)
    : list SelectOption :=
  {| value := ""; text := "회원 등급 선택" |}
  :: mapi (fun m i =>
             {| value := Number_toString i;
                text := Membership.name m ++ " - "
                        ++ (Number_toString (Membership.discountValue m) ++ "%") |})
          memberships.

Definition ApplyCoupon_handleChange {R : Type}
    (coupons : list Coupon.t)
    (onCouponChange : option Coupon.t -> R)
    (targetValue : string) : R :=
  onCouponChange (arrayGet coupons (parseInt targetValue)).

Definition ApplyCoupon_options (coupons : list Coupon.t) : list SelectOption :=
  {| value := ""; text := "쿠폰 선택" |}
  :: mapi (fun coupon index =>
             {| value := Number_toString index;
                text := Coupon.name coupon ++ " -" ++ " "
                        ++ (if String.eqb (Coupon.discountType coupon) "amount"
                            then Number_toString (Coupon.discountValue coupon) ++ "원"
                            else Number_toString (Coupon.discountValue coupon) ++ "%") |})
          coupons.

(** The confirmation line under the coupon selector; nothing is rendered
    while [selectedCoupon] is [null]. *)
Definition ApplyCoupon_confirmation (selectedCoupon : option Coupon.t)
    : option string :=
  match selectedCoupon with
  | Some c =>
      Some ("적용된 쿠폰: " ++ Coupon.name c ++ "("
            ++ (if String.eqb (Coupon.discountType c) "amount"
                then Number_toString (Coupon.discountValue c) ++ "원"
                else Number_toString (Coupon.discountValue c) ++ "%")
            ++ " " ++ "할인)")
  | None => None
  end.

(** ** Further parts of the rendered tree *)

(** [a > b] on two rates. *)
Definition Qc_gtb (a b : Qc) : bool :=
  match (a ?= b)%Qc with
  | Gt => true
  | _ => false
  end.

(** The confirmation line under the membership selector; nothing is
    rendered while [selectedMembership] is [null]. *)
Definition ApplyMembership_confirmation
    (selectedMembership : option Membership.t) : option string :=
  match selectedMembership with
  | Some m =>
      Some ("적용된 맴버쉽: " ++ Membership.name m ++ "("
            ++ Number_toString (Membership.discountValue m) ++ "% 할인)")
  | None => None
  end.

(** ** The same computations on numbers that may be [NaN]

    The definitions above read every [number] as an ordinary one.  Module
    [WithNaN] embeds the three computations, the applied-discount note and
    the indicators of a product card once more, on numbers that may be
    [NaN] ([None], as for [parseInt]): [Math.max] is [NaN] as soon as one
    argument is, every comparison with [NaN] is false, [-] propagates it and
    [||] takes it for falsy. *)

Module WithNaN.

Module Discount.
Record t : Type := mk { quantity : option Z; rate : option Qc }.
End Discount.

Module Product.
Record t : Type := mk {
  id : string;
  name : string;
  price : option Z;
  stock : option Z;
  discounts : list Discount.t
}.
End Product.

Module CartItem.
Record t : Type := mk { product : Product.t; quantity : option Z }.
End CartItem.

(** [Math.max(a, b)] *)
Definition Math_max (a b : option Qc) : option Qc :=
  match a, b with
  | Some x, Some y => Some (if Qle_bool x y then y else x)
  | _, _ => None
  end.

(** [a >= b], [a > b] and [a <= b] on counts. *)
Definition geb (a b : option Z) : bool :=
  match a, b with
  | Some x, Some y => x >=? y
  | _, _ => false
  end.

Definition gtb (a b : option Z) : bool :=
  match a, b with
  | Some x, Some y => x >? y
  | _, _ => false
  end.

Definition leb (a b : option Z) : bool :=
  match a, b with
  | Some x, Some y => x <=? y
  | _, _ => false
  end.

(** [a - b] on counts. *)
Definition subtract (a b : option Z) : option Z :=
  match a, b with
  | Some x, Some y => Some (x - y)
  | _, _ => None
  end.

(** [a > b] and [a >= b] on rates. *)
Definition rate_gtb (a b : option Qc) : bool :=
  match a, b with
  | Some x, Some y => Qc_gtb x y
  | _, _ => false
  end.

Definition rate_geb (a b : option Qc) : bool :=
  match a, b with
  | Some x, Some y => Qle_bool y x
  | _, _ => false
  end.

Definition getMaxDiscount (discounts : list Discount.t) : option Qc :=
  fold_left (fun max discount => Math_max max (Discount.rate discount))
            discounts (Some (Q2Qc 0)).

Definition applyTier (quantity : option Z) (appliedDiscount : option Qc)
    (discount : Discount.t) : option Qc :=
  if geb quantity (Discount.quantity discount)
  then Math_max appliedDiscount (Discount.rate discount)
  else appliedDiscount.

Definition getAppliedDiscount (item : CartItem.t) : option Qc :=
  let discounts := Product.discounts (CartItem.product item) in
  let quantity := CartItem.quantity item in
  fold_left (applyTier quantity) discounts (Some (Q2Qc 0)).

(** [appliedDiscount > 0 && <span>...</span>] on a cart line: whether the
    applied-discount note is rendered. *)
Definition showsAppliedDiscount (item : CartItem.t) : bool :=
  let appliedDiscount := getAppliedDiscount item in
  rate_gtb appliedDiscount (Some (Q2Qc 0)).

Definition findCartItem (cart : list CartItem.t) (product : Product.t)
    : option CartItem.t :=
  find (fun item =>
          String.eqb (Product.id (CartItem.product item)) (Product.id product))
       cart.

(** [cartItem?.quantity || 0]: [undefined], [NaN] and [0] are falsy. *)
Definition quantityOrZero (cartItem : option CartItem.t) : option Z :=
  match cartItem with
  | Some item =>
      match CartItem.quantity item with
      | Some q => if q =? 0 then Some 0 else Some q
      | None => Some 0
      end
  | None => Some 0
  end.

Definition getRemainingStock (cart : list CartItem.t) (product : Product.t)
    : option Z :=
  let cartItem := findCartItem cart product in
  subtract (Product.stock product) (quantityOrZero cartItem).

(** What a product card shows of the remaining stock: the class of the
    stock text, and the class, [disabled] and label of the button. *)
Record CardIndicators : Type := mkCardIndicators {
  stockClassName : string;
  buttonClassName : string;
  buttonDisabled : bool;
  buttonLabel : string
}.

Definition cardIndicators (cart : list CartItem.t) (product : Product.t)
    : CardIndicators :=
  let remainingStock := getRemainingStock cart product in
  {| stockClassName :=
       "font-medium " ++ (if gtb remainingStock (Some 0) then "text-green-600"
                          else "text-red-600");
     buttonClassName :=
       "w-full rounded px-3 py-1 " ++
       (if gtb remainingStock (Some 0)
        then "bg-blue-500 text-white hover:bg-blue-600"
        else "cursor-not-allowed bg-gray-300 text-gray-500");
     buttonDisabled := leb remainingStock (Some 0);
     buttonLabel :=
       if gtb remainingStock (Some 0) then "장바구니에 추가" else "품절" |}.

End WithNaN.

(** An ordinary tier, product and cart item, as data of [WithNaN]. *)
Definition liftDiscount (d : Discount.t) : WithNaN.Discount.t :=
  WithNaN.Discount.mk (Some (Discount.quantity d)) (Some (Discount.rate d)).

Definition liftProduct (p : Product.t) : WithNaN.Product.t :=
  WithNaN.Product.mk (Product.id p) (Product.name p) (Some (Product.price p))
    (Some (Product.stock p)) (map liftDiscount (Product.discounts p)).

Definition liftCartItem (item : CartItem.t) : WithNaN.CartItem.t :=
  WithNaN.CartItem.mk (liftProduct (CartItem.product item))
    (Some (CartItem.quantity item)).

(** ** Vocabulary of the specification *)

(** "tier rates are fractions in [0,1]" *)
Definition fractionRates (tiers : list Discount.t) : Prop :=
  forall d, In d tiers -> (0 <= Discount.rate d /\ Discount.rate d <= 1)%Qc.

(** "the tiers whose quantity threshold is <= item.quantity" *)
Definition qualifyingTiers (item : CartItem.t) : list Discount.t :=
  filter (fun d => Discount.quantity d <=? CartItem.quantity item)
         (Product.discounts (CartItem.product item)).

(** [r] is "the maximum rate among" [tiers]: the rate of one of them, and
    no tier has a larger one. *)
Definition maxRateOf (tiers : list Discount.t) (r : Qc) : Prop :=
  (exists d, In d tiers /\ Discount.rate d = r)
  /\ (forall d, In d tiers -> (Discount.rate d <= r)%Qc).

(** "at most one line per product id" *)
Definition oneLinePerProduct (cart : list CartItem.t) : Prop :=
  NoDup (map (fun item => Product.id (CartItem.product item)) cart).

(** A change handler over the array [xs] "passes to the callback the array
    element at the position obtained by parsing the value as an integer when
    that position is in range, and passes null when the blank option is
    selected or the parsed position is out of range"; a value that parses
    to no integer at all is listed with the latter. *)
Definition selectsByPosition {A R : Type} (xs : list A)
    (callback : option A -> R) (handleChange : string -> R) : Prop :=
  handleChange "" = callback None
  /\ (forall v n, parseInt v = Some n ->
        0 <= n < Z.of_nat (List.length xs) ->
        exists x, nth_error xs (Z.to_nat n) = Some x
                  /\ handleChange v = callback (Some x))
  /\ (forall v n, parseInt v = Some n ->
        n < 0 \/ Z.of_nat (List.length xs) <= n ->
        handleChange v = callback None)
  /\ (forall v, parseInt v = None -> handleChange v = callback None).

(** The values a selection widget offers are the blank one followed by the
    positions of [xs] in order, and choosing the value of position [i] hands
    the element at [i] to the callback. *)
Definition servesOwnOptions {A R : Type} (xs : list A)
    (callback : option A -> R) (options : list SelectOption)
    (handleChange : string -> R) : Prop :=
  map value options
  = "" :: map (fun i => Number_toString (Z.of_nat i)) (seq 0 (List.length xs))
  /\ (forall i x, nth_error xs i = Some x ->
        handleChange (Number_toString (Z.of_nat i)) = callback (Some x)).

(** "the discount value followed by" a suffix *)
Definition valueFollowedBy (coupon : Coupon.t) (suffix : string) : string :=
  Number_toString (Coupon.discountValue coupon) ++ suffix.

(** ** Scenarios of the specification *)

Definition tiers_2_5 : list Discount.t :=
  [Discount.mk 2 (Q2Qc (1 # 10)); Discount.mk 5 (Q2Qc (2 # 10))].

Definition product_p1 : Product.t := Product.mk "p1" "상품1" 10000 3 tiers_2_5.

Definition product_p2 : Product.t := Product.mk "p2" "상품2" 20000 5 [].

Definition coupon_amount : Coupon.t := Coupon.mk "1000원 할인 쿠폰" "AMOUNT1000" "amount" 1000.

Definition coupon_percentage : Coupon.t := Coupon.mk "10% 할인 쿠폰" "PERCENT10" "percentage" 10.

Definition tier_NaN_rate : WithNaN.Discount.t :=
  WithNaN.Discount.mk (Some 1) None.

Definition product_NaN_rate : WithNaN.Product.t :=
  WithNaN.Product.mk "p4" "상품4" (Some 1000) (Some 5)
    [WithNaN.Discount.mk (Some 1) (Some (Q2Qc (1 # 2))); tier_NaN_rate].

Definition product_NaN_stock : WithNaN.Product.t :=
  WithNaN.Product.mk "p5" "상품5" (Some 1000) None [].

(** * Properties *)

(** ** [Math.max] is the least upper bound of its two arguments *)

Lemma Math_max_spec (a b : Qc) :
  (a <= b /\ Math_max a b = b)%Qc \/ (b < a /\ Math_max a b = a)%Qc.
Proof.
  unfold Math_max. destruct (Qle_bool a b) eqn:E.
  - left. split; [ | reflexivity ].
    unfold Qcle. apply Qle_bool_iff. exact E.
  - right. split; [ | reflexivity ].
    apply Qcnot_le_lt. intro H. unfold Qcle in H.
    apply Qle_bool_iff in H. congruence.
Qed.

Lemma Math_max_l (a b : Qc) : (a <= Math_max a b)%Qc.
Proof.
  destruct (Math_max_spec a b) as [[H ->] | [H ->]].
  - exact H.
  - apply Qcle_refl.
Qed.

Lemma Math_max_r (a b : Qc) : (b <= Math_max a b)%Qc.
Proof.
  destruct (Math_max_spec a b) as [[H ->] | [H ->]].
  - apply Qcle_refl.
  - apply Qclt_le_weak. exact H.
Qed.

Lemma Math_max_lub (a b c : Qc) :
  (a <= c)%Qc -> (b <= c)%Qc -> (Math_max a b <= c)%Qc.
Proof.
  intros Ha Hb. destruct (Math_max_spec a b) as [[_ ->] | [_ ->]]; assumption.
Qed.

Lemma Math_max_comm (a b : Qc) : Math_max a b = Math_max b a.
Proof.
  apply Qcle_antisym; apply Math_max_lub;
    auto using Math_max_l, Math_max_r.
Qed.

Lemma Math_max_assoc (a b c : Qc) :
  Math_max (Math_max a b) c = Math_max a (Math_max b c).
Proof.
  apply Qcle_antisym; repeat apply Math_max_lub;
    eauto using Math_max_l, Math_max_r, Qcle_trans.
Qed.

Lemma Math_max_swap (a b c : Qc) :
  Math_max (Math_max a b) c = Math_max (Math_max a c) b.
Proof.
  rewrite !Math_max_assoc. f_equal. apply Math_max_comm.
Qed.

(** ** The reduction of [getMaxDiscount], from any starting value *)

Lemma reduce_max_ge_init (ds : list Discount.t) (init : Qc) :
  (init <= fold_left (fun max d => Math_max max (Discount.rate d)) ds init)%Qc.
Proof.
  revert init. induction ds as [| d ds IH]; intros init; simpl.
  - apply Qcle_refl.
  - eapply Qcle_trans; [ apply Math_max_l | apply IH ].
Qed.

Lemma reduce_max_ge_rate (ds : list Discount.t) (init : Qc) (d : Discount.t) :
  In d ds ->
  (Discount.rate d
   <= fold_left (fun max d => Math_max max (Discount.rate d)) ds init)%Qc.
Proof.
  revert init. induction ds as [| d0 ds IH]; intros init Hin; simpl.
  - destruct Hin.
  - destruct Hin as [-> | Hin].
    + eapply Qcle_trans; [ apply Math_max_r | apply reduce_max_ge_init ].
    + apply IH. exact Hin.
Qed.

Lemma reduce_max_attained (ds : list Discount.t) (init : Qc) :
  fold_left (fun max d => Math_max max (Discount.rate d)) ds init = init
  \/ exists d, In d ds
       /\ Discount.rate d
          = fold_left (fun max d => Math_max max (Discount.rate d)) ds init.
Proof.
  revert init. induction ds as [| d0 ds IH]; intros init; simpl.
  - left. reflexivity.
  - destruct (IH (Math_max init (Discount.rate d0))) as [E | [d [Hin E]]].
    + rewrite E.
      destruct (Math_max_spec init (Discount.rate d0)) as [[_ ->] | [_ ->]].
      * right. exists d0. split; [ left | ]; reflexivity.
      * left. reflexivity.
    + right. exists d. split; [ right; exact Hin | exact E ].
Qed.

(** On fraction rates the reduction from 0 over a non-empty list is the
    maximum rate of the list. *)
Lemma getMaxDiscount_maxRateOf (ds : list Discount.t) :
  fractionRates ds -> ds <> [] -> maxRateOf ds (getMaxDiscount ds).
Proof.
  intros Hfr Hne. split.
  - destruct (reduce_max_attained ds (Q2Qc 0)) as [E | H]; [ | exact H ].
    destruct ds as [| d0 ds]; [ congruence | ].
    exists d0. split; [ left; reflexivity | ].
    unfold getMaxDiscount. rewrite E.
    apply Qcle_antisym.
    + rewrite <- E. apply reduce_max_ge_rate. left. reflexivity.
    + apply Hfr. left. reflexivity.
  - intros d Hin. apply reduce_max_ge_rate. exact Hin.
Qed.

(** The loop of [getAppliedDiscount] is the reduction of [getMaxDiscount]
    over the tiers that pass its test. *)
Lemma applyTier_fold_filter (quantity : Z) (ds : list Discount.t) (init : Qc) :
  fold_left (applyTier quantity) ds init
  = fold_left (fun max d => Math_max max (Discount.rate d))
      (filter (fun d => Discount.quantity d <=? quantity) ds) init.
Proof.
  revert init. induction ds as [| d ds IH]; intros init; simpl.
  - reflexivity.
  - unfold applyTier at 2. rewrite Z.geb_leb.
    destruct (Discount.quantity d <=? quantity); simpl; apply IH.
Qed.

Lemma getAppliedDiscount_qualifying (item : CartItem.t) :
  getAppliedDiscount item = getMaxDiscount (qualifyingTiers item).
Proof.
  unfold getAppliedDiscount, getMaxDiscount, qualifyingTiers.
  apply applyTier_fold_filter.
Qed.

Lemma fractionRates_filter (f : Discount.t -> bool) (ds : list Discount.t) :
  fractionRates ds -> fractionRates (filter f ds).
Proof.
  intros H d Hin. apply H. apply filter_In in Hin. apply Hin.
Qed.

Lemma fractionRates_tiers_2_5 : fractionRates tiers_2_5.
Proof.
  intros d [<- | [<- | []]]; split; vm_compute; discriminate.
Defined.

(** ** Discount evaluator: the claims *)

(** C2.  On tier rates that are fractions in [0,1], [getMaxDiscount] returns
    0 for the empty list and otherwise the largest rate among all tiers: the
    rate of one of the tiers, with no tier above it.  The function is total:
    it is defined, by structural recursion, on every list. *)
Theorem getMaxDiscount_largest_rate (tiers : list Discount.t) :
  fractionRates tiers ->
  (tiers = [] -> getMaxDiscount tiers = Q2Qc 0)
  /\ (tiers <> [] -> maxRateOf tiers (getMaxDiscount tiers)).
Proof.
  intros Hfr. split.
  - intros ->. reflexivity.
  - apply getMaxDiscount_maxRateOf. exact Hfr.
Qed.

Lemma getMaxDiscount_largest_rate_witness :
  fractionRates tiers_2_5
  /\ (tiers_2_5 = [] -> getMaxDiscount tiers_2_5 = Q2Qc 0)
  /\ (tiers_2_5 <> [] -> maxRateOf tiers_2_5 (getMaxDiscount tiers_2_5)).
Proof.
  split.
  - exact fractionRates_tiers_2_5.
  - apply (getMaxDiscount_largest_rate tiers_2_5).
    exact fractionRates_tiers_2_5.
Defined.

(** C1.  On tier rates that are fractions in [0,1], [getAppliedDiscount]
    returns 0 when no tier has its threshold <= the item's quantity (an
    empty tier list included), and otherwise the maximum rate among the
    tiers whose threshold is <= the item's quantity. *)
Theorem getAppliedDiscount_max_qualifying (item : CartItem.t) :
  fractionRates (Product.discounts (CartItem.product item)) ->
  (qualifyingTiers item = [] -> getAppliedDiscount item = Q2Qc 0)
  /\ (qualifyingTiers item <> [] ->
      maxRateOf (qualifyingTiers item) (getAppliedDiscount item)).
Proof.
  intros Hfr. rewrite getAppliedDiscount_qualifying. split.
  - intros ->. reflexivity.
  - apply getMaxDiscount_maxRateOf.
    apply fractionRates_filter. exact Hfr.
Qed.

Lemma getAppliedDiscount_max_qualifying_witness :
  fractionRates (Product.discounts (CartItem.product (CartItem.mk product_p1 5)))
  /\ (qualifyingTiers (CartItem.mk product_p1 5) = [] ->
      getAppliedDiscount (CartItem.mk product_p1 5) = Q2Qc 0)
  /\ (qualifyingTiers (CartItem.mk product_p1 5) <> [] ->
      maxRateOf (qualifyingTiers (CartItem.mk product_p1 5))
                (getAppliedDiscount (CartItem.mk product_p1 5))).
Proof.
  split.
  - exact fractionRates_tiers_2_5.
  - apply (getAppliedDiscount_max_qualifying (CartItem.mk product_p1 5)).
    exact fractionRates_tiers_2_5.
Defined.

(** The scenario of the specification: tiers (2, 0.1) and (5, 0.2),
    quantity 5, applied discount 0.2; below the first threshold, 0. *)
Example getAppliedDiscount_scenario :
  getAppliedDiscount (CartItem.mk product_p1 5) = Q2Qc (2 # 10)
  /\ getAppliedDiscount (CartItem.mk product_p1 4) = Q2Qc (1 # 10)
  /\ getAppliedDiscount (CartItem.mk product_p1 1) = Q2Qc 0
  /\ getMaxDiscount tiers_2_5 = Q2Qc (2 # 10).
Proof. repeat split; apply Qc_is_canon; reflexivity. Qed.

(** ** The reductions on numbers that may be [NaN] *)

Lemma reduce_NaN (ds : list WithNaN.Discount.t) :
  fold_left (fun max d => WithNaN.Math_max max (WithNaN.Discount.rate d))
            ds None
  = None.
Proof.
  induction ds as [| d ds IH]; simpl; [ reflexivity | exact IH ].
Qed.

Lemma reduce_number (ds : list WithNaN.Discount.t) (a r : Qc) :
  fold_left (fun max d => WithNaN.Math_max max (WithNaN.Discount.rate d))
            ds (Some a)
  = Some r ->
  (a <= r)%Qc
  /\ (forall d, In d ds ->
        exists x, WithNaN.Discount.rate d = Some x /\ (x <= r)%Qc)
  /\ (r = a \/ exists d, In d ds /\ WithNaN.Discount.rate d = Some r).
Proof.
  revert a. induction ds as [| d ds IH]; intros a; simpl.
  - intros [= <-]. split; [ apply Qcle_refl | ].
    split; [ intros d [] | left; reflexivity ].
  - destruct (WithNaN.Discount.rate d) as [x |] eqn:E; simpl.
    + change (if Qle_bool a x then x else a) with (Math_max a x).
      intros H. destruct (IH _ H) as [Ha [Hall Hatt]].
      split; [ exact (Qcle_trans _ _ _ (Math_max_l a x) Ha) | ].
      split.
      * intros d' [<- | Hin].
        -- exists x. split; [ exact E | ].
           exact (Qcle_trans _ _ _ (Math_max_r a x) Ha).
        -- apply Hall. exact Hin.
      * destruct Hatt as [-> | [d' [Hin E']]].
        -- destruct (Math_max_spec a x) as [[_ ->] | [_ ->]].
           ++ right. exists d. split; [ left; reflexivity | exact E ].
           ++ left. reflexivity.
        -- right. exists d'. split; [ right; exact Hin | exact E' ].
    + rewrite reduce_NaN. intros H. discriminate H.
Qed.

Lemma reduce_NaN_iff (ds : list WithNaN.Discount.t) (a : Qc) :
  fold_left (fun max d => WithNaN.Math_max max (WithNaN.Discount.rate d))
            ds (Some a)
  = None
  <-> exists d, In d ds /\ WithNaN.Discount.rate d = None.
Proof.
  revert a. induction ds as [| d ds IH]; intros a; simpl.
  - split; [ intros H; discriminate H | intros [d [[] _]] ].
  - destruct (WithNaN.Discount.rate d) as [x |] eqn:E; simpl.
    + rewrite IH. split.
      * intros [d' [Hin E']]. exists d'. split; [ right; exact Hin | exact E' ].
      * intros [d' [[<- | Hin] E']]; [ congruence | ].
        exists d'. split; assumption.
    + rewrite reduce_NaN. split; [ | reflexivity ].
      intros _. exists d. split; [ left; reflexivity | exact E ].
Qed.

Lemma applyTier_NaN_fold_filter (quantity : option Z)
    (ds : list WithNaN.Discount.t) (init : option Qc) :
  fold_left (WithNaN.applyTier quantity) ds init
  = fold_left (fun max d => WithNaN.Math_max max (WithNaN.Discount.rate d))
      (filter (fun d => WithNaN.geb quantity (WithNaN.Discount.quantity d)) ds)
      init.
Proof.
  revert init. induction ds as [| d ds IH]; intros init; simpl.
  - reflexivity.
  - unfold WithNaN.applyTier at 2.
    destruct (WithNaN.geb quantity (WithNaN.Discount.quantity d)); simpl;
      apply IH.
Qed.

Lemma rate_geb_0 (r : option Qc) :
  WithNaN.rate_geb r (Some (Q2Qc 0)) = true
  <-> exists x, r = Some x /\ (0 <= x)%Qc.
Proof.
  destruct r as [x |]; simpl.
  - rewrite Qle_bool_iff. split.
    + intros H. exists x. split; [ reflexivity | exact H ].
    + intros [y [[= <-] H]]. exact H.
  - split; [ intros H; discriminate H | intros [x [H _]]; discriminate H ].
Qed.

(** On ordinary numbers the two embeddings compute the same values. *)
Lemma getMaxDiscount_lift (ds : list Discount.t) :
  WithNaN.getMaxDiscount (map liftDiscount ds) = Some (getMaxDiscount ds).
Proof.
  unfold WithNaN.getMaxDiscount, getMaxDiscount.
  generalize (Q2Qc 0). induction ds as [| d ds IH]; intros a; simpl.
  - reflexivity.
  - apply IH.
Qed.

Lemma getAppliedDiscount_lift (item : CartItem.t) :
  WithNaN.getAppliedDiscount (liftCartItem item)
  = Some (getAppliedDiscount item).
Proof.
  unfold WithNaN.getAppliedDiscount, getAppliedDiscount. simpl.
  generalize (Q2Qc 0).
  induction (Product.discounts (CartItem.product item)) as [| d ds IH];
    intros a; simpl.
  - reflexivity.
  - unfold WithNaN.applyTier at 2, applyTier at 2. simpl.
    destruct (CartItem.quantity item >=? Discount.quantity d); apply IH.
Qed.

Lemma getRemainingStock_lift (cart : list CartItem.t) (product : Product.t) :
  WithNaN.getRemainingStock (map liftCartItem cart) (liftProduct product)
  = Some (getRemainingStock cart product).
Proof.
  unfold WithNaN.getRemainingStock, getRemainingStock.
  assert (H : WithNaN.quantityOrZero
                (WithNaN.findCartItem (map liftCartItem cart)
                                      (liftProduct product))
              = Some (quantityOrZero (findCartItem cart product))).
  { unfold WithNaN.findCartItem, findCartItem.
    induction cart as [| line cart IH]; simpl; [ reflexivity | ].
    destruct (String.eqb (Product.id (CartItem.product line))
                         (Product.id product)); [ | exact IH ].
    simpl. destruct (CartItem.quantity line =? 0); reflexivity. }
  rewrite H. reflexivity.
Qed.

(** C9.  Both reductions return a value >= 0 exactly when no rate they take
    the maximum of is [NaN]: for [getMaxDiscount] the rate of any tier, for
    [getAppliedDiscount] the rate of a tier whose threshold is met.  So on
    rates that are numbers, negative ones included, the result is >= 0, as 0
    is where the maximum starts; on a [NaN] rate it is [NaN]. *)
Theorem discounts_nonnegative_unless_NaN (tiers : list WithNaN.Discount.t)
    (item : WithNaN.CartItem.t) :
  (WithNaN.rate_geb (WithNaN.getMaxDiscount tiers) (Some (Q2Qc 0)) = true
   <-> forall d, In d tiers -> WithNaN.Discount.rate d <> None)
  /\ (WithNaN.rate_geb (WithNaN.getAppliedDiscount item) (Some (Q2Qc 0)) = true
      <-> forall d,
            In d (WithNaN.Product.discounts (WithNaN.CartItem.product item)) ->
            WithNaN.geb (WithNaN.CartItem.quantity item)
                        (WithNaN.Discount.quantity d) = true ->
            WithNaN.Discount.rate d <> None).
Proof.
  assert (Hgen : forall ds,
            WithNaN.rate_geb
              (fold_left (fun max d =>
                            WithNaN.Math_max max (WithNaN.Discount.rate d))
                         ds (Some (Q2Qc 0)))
              (Some (Q2Qc 0)) = true
            <-> forall d, In d ds -> WithNaN.Discount.rate d <> None).
  { intros ds. rewrite rate_geb_0. split.
    - intros [x [Hx _]] d Hin E.
      assert (Hnone : fold_left (fun max d =>
                                   WithNaN.Math_max max (WithNaN.Discount.rate d))
                                ds (Some (Q2Qc 0)) = None)
        by (apply reduce_NaN_iff; exists d; split; assumption).
      congruence.
    - intros Hall.
      destruct (fold_left (fun max d =>
                             WithNaN.Math_max max (WithNaN.Discount.rate d))
                          ds (Some (Q2Qc 0))) as [x |] eqn:E.
      + exists x. split; [ reflexivity | ].
        apply (reduce_number ds _ _ E).
      + apply reduce_NaN_iff in E. destruct E as [d [Hin E]].
        elim (Hall d Hin E). }
  split.
  - apply Hgen.
  - unfold WithNaN.getAppliedDiscount. cbv zeta.
    rewrite applyTier_NaN_fold_filter, Hgen. split.
    + intros H d Hin Hq. apply H. apply filter_In. split; assumption.
    + intros H d Hin. apply filter_In in Hin. apply H; apply Hin.
Qed.

(** A tier with rate [NaN] and its threshold met: both results are [NaN],
    and [NaN >= 0] is false. *)
Lemma discounts_nonnegative_fails_on_NaN :
  WithNaN.getMaxDiscount [tier_NaN_rate] = None
  /\ WithNaN.rate_geb (WithNaN.getMaxDiscount [tier_NaN_rate])
                      (Some (Q2Qc 0)) = false
  /\ WithNaN.getAppliedDiscount
       (WithNaN.CartItem.mk product_NaN_rate (Some 1)) = None
  /\ WithNaN.rate_geb
       (WithNaN.getAppliedDiscount
          (WithNaN.CartItem.mk product_NaN_rate (Some 1)))
       (Some (Q2Qc 0)) = false.
Proof. repeat split. Qed.

(** Negative rates alone leave both results at 0, and a [NaN] rate whose
    threshold is not met leaves the applied discount a number. *)
Example discounts_nonnegative_negative_rate :
  WithNaN.getMaxDiscount
    [WithNaN.Discount.mk (Some 1) (Some (Q2Qc (-1 # 2)))]
  = Some (Q2Qc 0)
  /\ WithNaN.getAppliedDiscount
       (WithNaN.CartItem.mk
          (WithNaN.Product.mk "p" "n" (Some 1) (Some 1)
             [WithNaN.Discount.mk (Some 1) (Some (Q2Qc (-1 # 2)))])
          (Some 3))
     = Some (Q2Qc 0)
  /\ WithNaN.getAppliedDiscount
       (WithNaN.CartItem.mk product_NaN_rate (Some 0))
     = Some (Q2Qc 0).
Proof. repeat split; f_equal; apply Qc_is_canon; reflexivity. Qed.

(** ** Order of the tiers *)

Lemma applyTier_swap (quantity : Z) (acc : Qc) (d1 d2 : Discount.t) :
  applyTier quantity (applyTier quantity acc d1) d2
  = applyTier quantity (applyTier quantity acc d2) d1.
Proof.
  unfold applyTier.
  destruct (quantity >=? Discount.quantity d1),
           (quantity >=? Discount.quantity d2); try reflexivity.
  apply Math_max_swap.
Qed.

Lemma applyTier_fold_Permutation (quantity : Z) (ds ds' : list Discount.t) :
  Permutation ds ds' ->
  forall init, fold_left (applyTier quantity) ds init
               = fold_left (applyTier quantity) ds' init.
Proof.
  induction 1 as [| d ds ds' _ IH | d1 d2 ds | ds1 ds2 ds3 _ IH1 _ IH2];
    intros init; simpl.
  - reflexivity.
  - apply IH.
  - rewrite applyTier_swap. reflexivity.
  - rewrite IH1. apply IH2.
Qed.

(** C6.  Two cart items with the same quantity whose products list the same
    tiers in a different order get the same applied discount. *)
Theorem getAppliedDiscount_Permutation (item item' : CartItem.t) :
  CartItem.quantity item = CartItem.quantity item' ->
  Permutation (Product.discounts (CartItem.product item))
              (Product.discounts (CartItem.product item')) ->
  getAppliedDiscount item = getAppliedDiscount item'.
Proof.
  intros Hq Hperm. unfold getAppliedDiscount. rewrite Hq.
  apply applyTier_fold_Permutation. exact Hperm.
Qed.

Lemma getAppliedDiscount_Permutation_witness :
  let item := CartItem.mk product_p1 5 in
  let item' := CartItem.mk (Product.mk "p1" "상품1" 10000 3 (List.rev tiers_2_5)) 5 in
  CartItem.quantity item = CartItem.quantity item'
  /\ Permutation (Product.discounts (CartItem.product item))
                 (Product.discounts (CartItem.product item'))
  /\ getAppliedDiscount item = getAppliedDiscount item'.
Proof.
  intros item item'.
  assert (Hq : CartItem.quantity item = CartItem.quantity item') by reflexivity.
  assert (Hp : Permutation (Product.discounts (CartItem.product item))
                           (Product.discounts (CartItem.product item')))
    by (simpl; apply perm_swap).
  split; [ exact Hq | split; [ exact Hp | ] ].
  exact (getAppliedDiscount_Permutation item item' Hq Hp).
Defined.

(** ** Monotonicity in the quantity *)

Lemma getAppliedDiscount_mono_any_rates (product : Product.t) (q1 q2 : Z) :
  q1 <= q2 ->
  (getAppliedDiscount (CartItem.mk product q1)
   <= getAppliedDiscount (CartItem.mk product q2))%Qc.
Proof.
  intros Hq. rewrite !getAppliedDiscount_qualifying.
  destruct (reduce_max_attained (qualifyingTiers (CartItem.mk product q1)) (Q2Qc 0))
    as [E | [d [Hin E]]]; unfold getMaxDiscount at 1.
  - rewrite E. apply reduce_max_ge_init.
  - rewrite <- E. apply reduce_max_ge_rate.
    unfold qualifyingTiers in *. simpl in *.
    apply filter_In in Hin. destruct Hin as [Hin Hle].
    apply filter_In. split; [ exact Hin | ].
    apply Z.leb_le in Hle. apply Z.leb_le. lia.
Qed.

(** C8.  With the tier list fixed and all rates >= 0, the applied discount
    does not decrease when the quantity grows. *)
Theorem getAppliedDiscount_monotone (product : Product.t) (q1 q2 : Z) :
  (forall d, In d (Product.discounts product) -> (0 <= Discount.rate d)%Qc) ->
  q1 <= q2 ->
  (getAppliedDiscount (CartItem.mk product q1)
   <= getAppliedDiscount (CartItem.mk product q2))%Qc.
Proof.
  intros _. apply getAppliedDiscount_mono_any_rates.
Qed.

Lemma getAppliedDiscount_monotone_witness :
  (forall d, In d (Product.discounts product_p1) -> (0 <= Discount.rate d)%Qc)
  /\ 2 <= 5
  /\ (getAppliedDiscount (CartItem.mk product_p1 2)
      <= getAppliedDiscount (CartItem.mk product_p1 5))%Qc.
Proof.
  assert (Hr : forall d, In d (Product.discounts product_p1) ->
                         (0 <= Discount.rate d)%Qc)
    by (intros d Hin; apply (fractionRates_tiers_2_5 d Hin)).
  assert (Hq : 2 <= 5) by lia.
  split; [ exact Hr | split; [ exact Hq | ] ].
  exact (getAppliedDiscount_monotone product_p1 2 5 Hr Hq).
Defined.

(** ** Stock availability *)



Lemma quantityOrZero_Some (item : CartItem.t) :
  quantityOrZero (Some item) = CartItem.quantity item.
Proof.
  unfold quantityOrZero.
  destruct (Z.eqb_spec (CartItem.quantity item) 0) as [E | _]; congruence.
Qed.




(** The two stock scenarios of the specification. *)
Example getRemainingStock_scenarios :
  getRemainingStock [] product_p2 = 5
  /\ getRemainingStock [CartItem.mk product_p1 3] product_p1 = 0.
Proof. split; reflexivity. Qed.

(** ** The add-to-cart button *)

Lemma renderProductCard_button (cart : list CartItem.t) (product : Product.t) :
  let r := getRemainingStock cart product in
  let button := card_button (renderProductCard cart product) in
  ((disabled button = true /\ label button = "품절") <-> r <= 0)
  /\ (r > 0 -> disabled button = false /\ label button = "장바구니에 추가").
Proof.
  simpl. rewrite Z.gtb_ltb.
  destruct (Z.leb_spec (getRemainingStock cart product) 0) as [Hle | Hgt];
    destruct (Z.ltb_spec 0 (getRemainingStock cart product)) as [Hlt | Hge];
    try lia.
  - split; [ split | ]; intros; [ lia | split; reflexivity | lia ].
  - split; [ split | ].
    + intros [H _]. discriminate H.
    + intros. lia.
    + intros. split; reflexivity.
Qed.

(** C4.  Every product card of the catalog pane belongs to a product of the
    filtered list, and its button is disabled with the sold-out label
    exactly when that product's remaining stock is <= 0; when the remaining
    stock is > 0 the button is enabled and carries the add-to-cart label. *)
Theorem catalogPane_button (cart : list CartItem.t)
    (filteredProducts : list Product.t) (card : ProductCard) :
  In card (catalogPane cart filteredProducts) ->
  exists product,
    In product filteredProducts
    /\ card_key card = Product.id product
    /\ card_remainingStock card = getRemainingStock cart product
    /\ onClick (card_button card) = addToCart product
    /\ ((disabled (card_button card) = true
         /\ label (card_button card) = "품절")
        <-> getRemainingStock cart product <= 0)
    /\ (getRemainingStock cart product > 0 ->
        disabled (card_button card) = false
        /\ label (card_button card) = "장바구니에 추가").
Proof.
  unfold catalogPane. intros Hin. apply in_map_iff in Hin.
  destruct Hin as [product [<- Hin]].
  exists product. split; [ exact Hin | ].
  repeat (split; [ reflexivity | ]).
  apply renderProductCard_button.
Qed.

Lemma catalogPane_button_witness :
  let cart := [CartItem.mk product_p1 3] in
  let card := renderProductCard cart product_p1 in
  In card (catalogPane cart [product_p1; product_p2])
  /\ exists product,
       In product [product_p1; product_p2]
       /\ card_key card = Product.id product
       /\ card_remainingStock card = getRemainingStock cart product
       /\ onClick (card_button card) = addToCart product
       /\ ((disabled (card_button card) = true
            /\ label (card_button card) = "품절")
           <-> getRemainingStock cart product <= 0)
       /\ (getRemainingStock cart product > 0 ->
           disabled (card_button card) = false
           /\ label (card_button card) = "장바구니에 추가").
Proof.
  intros cart card.
  assert (Hin : In card (catalogPane cart [product_p1; product_p2]))
    by (left; reflexivity).
  split; [ exact Hin | ].
  exact (catalogPane_button cart [product_p1; product_p2] card Hin).
Defined.

(** Stock 3 with 3 in the cart: disabled, sold out.  Stock 5 with no line:
    enabled, add to cart. *)
Example catalogPane_scenarios :
  map (fun card => (card_remainingStock card,
                    disabled (card_button card),
                    label (card_button card)))
      (catalogPane [CartItem.mk product_p1 3] [product_p1; product_p2])
  = [(0, true, "품절"); (5, false, "장바구니에 추가")].
Proof. reflexivity. Qed.

(** ** Quantity controls of a cart line *)

(** C10.  For every item of the cart, the pane shows its line: the line's
    decrement control asks the Cart Aggregator for the item's quantity minus
    1 and its increment control for the quantity plus 1, whatever the
    quantity, and neither control is ever disabled, so nothing is clamped
    here and a line with quantity 1 asks for quantity 0.  The pane has one
    line per item and no other line. *)
Theorem cartPane_quantity_controls (cart : list CartItem.t)
    (item : CartItem.t) :
  In item cart ->
  In (renderCartLine item) (cartPane cart)
  /\ onClick (line_decrement (renderCartLine item))
     = updateQuantity (Product.id (CartItem.product item))
                      (CartItem.quantity item - 1)
  /\ onClick (line_increment (renderCartLine item))
     = updateQuantity (Product.id (CartItem.product item))
                      (CartItem.quantity item + 1)
  /\ disabled (line_decrement (renderCartLine item)) = false
  /\ disabled (line_increment (renderCartLine item)) = false
  /\ (CartItem.quantity item = 1 ->
      onClick (line_decrement (renderCartLine item))
      = updateQuantity (Product.id (CartItem.product item)) 0)
  /\ List.length (cartPane cart) = List.length cart
  /\ (forall i, nth_error (cartPane cart) i
                = option_map renderCartLine (nth_error cart i)).
Proof.
  intros Hin. unfold cartPane.
  split; [ apply in_map; exact Hin | ].
  repeat (split; [ reflexivity | ]).
  split; [ intros Hq; cbn [renderCartLine line_decrement onClick];
           rewrite Hq; reflexivity | ].
  split; [ apply length_map | ].
  intros i. apply nth_error_map.
Qed.

Lemma cartPane_quantity_controls_witness :
  let cart := [CartItem.mk product_p2 3; CartItem.mk product_p1 1;
               CartItem.mk (Product.mk "p3" "상품3" 30000 9 []) 0] in
  let item := CartItem.mk product_p1 1 in
  In item cart
  /\ In (renderCartLine item) (cartPane cart)
  /\ onClick (line_decrement (renderCartLine item))
     = updateQuantity (Product.id (CartItem.product item))
                      (CartItem.quantity item - 1)
  /\ onClick (line_increment (renderCartLine item))
     = updateQuantity (Product.id (CartItem.product item))
                      (CartItem.quantity item + 1)
  /\ disabled (line_decrement (renderCartLine item)) = false
  /\ disabled (line_increment (renderCartLine item)) = false
  /\ (CartItem.quantity item = 1 ->
      onClick (line_decrement (renderCartLine item))
      = updateQuantity (Product.id (CartItem.product item)) 0)
  /\ List.length (cartPane cart) = List.length cart
  /\ (forall i, nth_error (cartPane cart) i
                = option_map renderCartLine (nth_error cart i)).
Proof.
  intros cart item.
  assert (Hin : In item cart) by (right; left; reflexivity).
  split; [ exact Hin | ].
  exact (cartPane_quantity_controls cart item Hin).
Defined.

(** On a line with quantity 1 the decrement control requests quantity 0,
    and on a line with quantity 0 it requests -1; the increment controls
    request one more, line by line. *)
Example cartPane_decrement_to_zero :
  map (fun line => (onClick (line_decrement line), onClick (line_increment line)))
      (cartPane [CartItem.mk product_p2 3; CartItem.mk product_p1 1;
                 CartItem.mk (Product.mk "p3" "상품3" 30000 9 []) 0])
  = [(updateQuantity "p2" 2, updateQuantity "p2" 4);
     (updateQuantity "p1" 0, updateQuantity "p1" 2);
     (updateQuantity "p3" (-1), updateQuantity "p3" 1)].
Proof. reflexivity. Qed.

(** ** [parseInt] reads back what [Number_toString] writes *)

Lemma trimStart_ascii (c : ascii) (s : string) :
  byte c < 128 -> isWhiteSpace1 c = false ->
  trimStart (String c s) = String c s.
Proof.
  intros Hb Hws.
  assert (H2 : forall c2, isWhiteSpace2 c c2 = false).
  { intros c2. unfold isWhiteSpace2.
    destruct (Z.eqb_spec (byte c) 194); [ lia | reflexivity ]. }
  assert (H3 : forall c2 c3, isWhiteSpace3 c c2 c3 = false).
  { intros c2 c3. unfold isWhiteSpace3.
    destruct (Z.eqb_spec (byte c) 225); [ lia | ].
    destruct (Z.eqb_spec (byte c) 226); [ lia | ].
    destruct (Z.eqb_spec (byte c) 227); [ lia | ].
    destruct (Z.eqb_spec (byte c) 239); [ lia | ].
    reflexivity. }
  destruct s as [| c2 [| c3 s3]]; simpl; rewrite Hws, ?H2, ?H3; reflexivity.
Qed.

Lemma digit_not_whitespace (c : ascii) :
  45 <= byte c <= 57 -> byte c < 128 /\ isWhiteSpace1 c = false.
Proof.
  intros H. split; [ lia | ]. unfold isWhiteSpace1.
  destruct (Z.leb_spec (byte c) 13); [ lia | ].
  destruct (Z.eqb_spec (byte c) 32); [ lia | ].
  rewrite andb_false_r. reflexivity.
Qed.

Lemma string_of_uint_head (d : uint) :
  d <> Nil ->
  exists c s, NilEmpty.string_of_uint d = String c s /\ 48 <= byte c <= 57.
Proof.
  destruct d; [ congruence | .. ]; intros _; simpl;
    eexists; eexists; (split; [ reflexivity | ]); vm_compute;
    split; discriminate.
Qed.

Lemma stripPrefix_string_of_uint (d : uint) :
  stripPrefix (NilEmpty.string_of_uint d) = (10, NilEmpty.string_of_uint d).
Proof.
  destruct d as [| d | d | d | d | d | d | d | d | d | d];
    try reflexivity; destruct d; reflexivity.
Qed.

Ltac eval_digit :=
  match goal with
  | |- context [digitValue 10 ?c] =>
      let v := eval vm_compute in (digitValue 10 c) in
      change (digitValue 10 c) with v; cbv iota
  end.

Lemma parseDigits_of_uint_acc (d : uint) (acc : positive) :
  parseDigits 10 (NilEmpty.string_of_uint d) (Some (Zpos acc))
  = Some (Zpos (Pos.of_uint_acc d acc)).
Proof.
  revert acc.
  induction d as [| d IH | d IH | d IH | d IH | d IH | d IH | d IH | d IH
                  | d IH | d IH]; intros acc;
    [ reflexivity | .. ];
    cbn [NilEmpty.string_of_uint parseDigits Pos.of_uint_acc];
    eval_digit; rewrite <- IH; do 2 f_equal; lia.
Qed.

Lemma parseDigits_of_uint_zero (d : uint) :
  parseDigits 10 (NilEmpty.string_of_uint d) (Some 0)
  = Some (Z.of_N (Pos.of_uint d)).
Proof.
  induction d as [| d IH | d IH | d IH | d IH | d IH | d IH | d IH | d IH
                  | d IH | d IH];
    [ reflexivity | exact IH | .. ];
    cbn [NilEmpty.string_of_uint parseDigits Pos.of_uint Z.of_N];
    eval_digit; rewrite <- parseDigits_of_uint_acc; reflexivity.
Qed.

Lemma parseDigits_of_uint (d : uint) :
  d <> Nil ->
  parseDigits 10 (NilEmpty.string_of_uint d) None
  = Some (Z.of_N (Pos.of_uint d)).
Proof.
  intros Hd. rewrite <- parseDigits_of_uint_zero.
  destruct d; [ congruence | .. ]; reflexivity.
Qed.

(** A numeral with no sign in front is read in radix 10, as itself. *)
Lemma parseInt_string_of_uint (d : uint) :
  d <> Nil ->
  parseInt (NilEmpty.string_of_uint d) = Some (Z.of_N (Pos.of_uint d)).
Proof.
  intros Hd. unfold parseInt.
  destruct (string_of_uint_head d Hd) as [c [s [E Hc]]].
  assert (Hs : stripSign (NilEmpty.string_of_uint d)
               = (1, NilEmpty.string_of_uint d)).
  { rewrite E. unfold stripSign.
    destruct (Z.eqb_spec (byte c) 45); [ lia | ].
    destruct (Z.eqb_spec (byte c) 43); [ lia | ]. reflexivity. }
  rewrite E at 1.
  destruct (digit_not_whitespace c) as [Hb Hws]; [ lia | ].
  rewrite trimStart_ascii by assumption.
  rewrite <- E, Hs, stripPrefix_string_of_uint, parseDigits_of_uint by exact Hd.
  f_equal; lia.
Qed.

Lemma parseInt_minus_string_of_uint (d : uint) :
  d <> Nil ->
  parseInt (String "-" (NilEmpty.string_of_uint d))
  = Some (- Z.of_N (Pos.of_uint d)).
Proof.
  intros Hd. unfold parseInt.
  rewrite trimStart_ascii by (vm_compute; reflexivity).
  cbn [stripSign]. change (byte "-" =? 45) with true. cbv iota.
  rewrite stripPrefix_string_of_uint, parseDigits_of_uint by exact Hd.
  f_equal; lia.
Qed.

Lemma NilZero_string_of_uint_nonnil (d : uint) :
  d <> Nil -> NilZero.string_of_uint d = NilEmpty.string_of_uint d.
Proof.
  destruct d; [ congruence | .. ]; reflexivity.
Qed.

Lemma parseInt_Number_toString (n : Z) :
  parseInt (Number_toString n) = Some n.
Proof.
  destruct n as [| p | p]; [ reflexivity | | ];
    unfold Number_toString; cbn [Z.to_int NilZero.string_of_int];
    rewrite NilZero_string_of_uint_nonnil
      by apply DecimalPos.Unsigned.to_uint_nonnil.
  - rewrite parseInt_string_of_uint
      by apply DecimalPos.Unsigned.to_uint_nonnil.
    rewrite DecimalPos.Unsigned.of_to. reflexivity.
  - rewrite parseInt_minus_string_of_uint
      by apply DecimalPos.Unsigned.to_uint_nonnil.
    rewrite DecimalPos.Unsigned.of_to. reflexivity.
Qed.

(** ** Arrays read by position, and [map] with the position *)

Lemma arrayGet_in_range {A : Type} (xs : list A) (n : Z) :
  0 <= n < Z.of_nat (List.length xs) ->
  exists x, nth_error xs (Z.to_nat n) = Some x /\ arrayGet xs (Some n) = Some x.
Proof.
  intros Hn. unfold arrayGet.
  destruct (Z.ltb_spec n 0) as [Hneg | _]; [ lia | ].
  destruct (nth_error xs (Z.to_nat n)) as [x |] eqn:E.
  - exists x. split; reflexivity.
  - apply nth_error_None in E. lia.
Qed.

Lemma arrayGet_out_of_range {A : Type} (xs : list A) (n : Z) :
  n < 0 \/ Z.of_nat (List.length xs) <= n ->
  arrayGet xs (Some n) = None.
Proof.
  intros Hn. unfold arrayGet.
  destruct (Z.ltb_spec n 0) as [Hneg | Hpos]; [ reflexivity | ].
  apply nth_error_None. lia.
Qed.

Lemma arrayGet_selectsByPosition {A R : Type} (xs : list A)
    (callback : option A -> R) :
  selectsByPosition xs callback
    (fun targetValue => callback (arrayGet xs (parseInt targetValue))).
Proof.
  unfold selectsByPosition. split; [ reflexivity | ].
  split; [ | split ].
  - intros v n Hv Hn. rewrite Hv.
    destruct (arrayGet_in_range xs n Hn) as [x [Hx Hget]].
    exists x. split; [ exact Hx | ]. rewrite Hget. reflexivity.
  - intros v n Hv Hn. rewrite Hv, (arrayGet_out_of_range xs n Hn). reflexivity.
  - intros v Hv. rewrite Hv. reflexivity.
Qed.

Lemma arrayGet_Number_toString {A : Type} (xs : list A) (i : nat) (x : A) :
  nth_error xs i = Some x ->
  arrayGet xs (parseInt (Number_toString (Z.of_nat i))) = Some x.
Proof.
  intros Hx. rewrite parseInt_Number_toString. unfold arrayGet.
  destruct (Z.ltb_spec (Z.of_nat i) 0) as [Hneg | _]; [ lia | ].
  rewrite Nat2Z.id. exact Hx.
Qed.

Lemma nth_error_mapFrom {A B : Type} (f : A -> Z -> B) (xs : list A)
    (i : Z) (k : nat) :
  nth_error (mapFrom f i xs) k
  = option_map (fun x => f x (i + Z.of_nat k)) (nth_error xs k).
Proof.
  revert i k. induction xs as [| x xs IH]; intros i [| k]; simpl;
    try reflexivity.
  - rewrite Z.add_0_r. reflexivity.
  - rewrite IH. replace (i + 1 + Z.of_nat k) with (i + Z.pos (Pos.of_succ_nat k))
      by lia. reflexivity.
Qed.

Lemma map_value_mapFrom {A : Type} (g : A -> Z -> string) (xs : list A) (i : Z) :
  map value (mapFrom (fun x j => {| value := Number_toString j; text := g x j |})
                     i xs)
  = map (fun k => Number_toString (i + Z.of_nat k)) (seq 0 (List.length xs)).
Proof.
  revert i. induction xs as [| x xs IH]; intros i; simpl.
  - reflexivity.
  - rewrite Z.add_0_r. f_equal.
    rewrite IH, <- seq_shift, map_map.
    apply map_ext. intros k. f_equal. lia.
Qed.

(** ** Selection widgets: the claims *)

(** C5.  Each change handler hands its callback the array element at the
    position [parseInt] reads from the chosen value when that position is in
    range, and [null] for the blank value, for a position out of range and
    for a value that is no number.  The values the widget itself offers are
    the blank one and the positions of the array, and each position selects
    its own element. *)
Theorem handleChange_selectsByPosition {R : Type}
    (memberships : list Membership.t) (coupons : list Coupon.t)
    (onMembershipChange : option Membership.t -> R)
    (onCouponChange : option Coupon.t -> R) :
  selectsByPosition memberships onMembershipChange
    (ApplyMembership_handleChange memberships onMembershipChange)
  /\ servesOwnOptions memberships onMembershipChange
       (ApplyMembership_options memberships)
       (ApplyMembership_handleChange memberships onMembershipChange)
  /\ selectsByPosition coupons onCouponChange
       (ApplyCoupon_handleChange coupons onCouponChange)
  /\ servesOwnOptions coupons onCouponChange
       (ApplyCoupon_options coupons)
       (ApplyCoupon_handleChange coupons onCouponChange).
Proof.
  split; [ apply arrayGet_selectsByPosition | ].
  split.
  { split.
    - unfold ApplyMembership_options, mapi. simpl. f_equal.
      apply map_value_mapFrom.
    - intros i x Hx. unfold ApplyMembership_handleChange.
      rewrite (arrayGet_Number_toString memberships i x Hx). reflexivity. }
  split; [ apply arrayGet_selectsByPosition | ].
  split.
  - unfold ApplyCoupon_options, mapi. simpl. f_equal.
    apply map_value_mapFrom.
  - intros i x Hx. unfold ApplyCoupon_handleChange.
    rewrite (arrayGet_Number_toString coupons i x Hx). reflexivity.
Qed.

(** Choosing the blank option, a listed position, a position past the end,
    a negative position and a value that is no number. *)
Example handleChange_scenarios :
  map (ApplyCoupon_handleChange [coupon_amount; coupon_percentage] applyCoupon)
      [""; "0"; "1"; "2"; "-1"; "abc"]
  = [applyCoupon None; applyCoupon (Some coupon_amount);
     applyCoupon (Some coupon_percentage); applyCoupon None;
     applyCoupon None; applyCoupon None].
Proof. reflexivity. Qed.

(** C7.  The label of a coupon is its discount value followed by the
    currency suffix when its type is "amount" and by the percent sign when
    its type is "percentage", both in its entry of the option list and in
    the confirmation line shown once it is applied. *)
Theorem coupon_label (coupons : list Coupon.t) (i : nat) (coupon : Coupon.t)
    (suffix : string) :
  nth_error coupons i = Some coupon ->
  (Coupon.discountType coupon = "amount" /\ suffix = "원")
  \/ (Coupon.discountType coupon = "percentage" /\ suffix = "%") ->
  (exists opt,
     nth_error (ApplyCoupon_options coupons) (S i) = Some opt
     /\ text opt = Coupon.name coupon ++ " - " ++ valueFollowedBy coupon suffix)
  /\ ApplyCoupon_confirmation (Some coupon)
     = Some ("적용된 쿠폰: " ++ Coupon.name coupon ++ "("
             ++ valueFollowedBy coupon suffix ++ " 할인)").
Proof.
  intros Hnth Htype. split.
  - eexists. split.
    + unfold ApplyCoupon_options, mapi. cbn [nth_error].
      rewrite nth_error_mapFrom, Hnth. reflexivity.
    + cbn [text]. unfold valueFollowedBy.
      destruct Htype as [[-> ->] | [-> ->]]; reflexivity.
  - unfold ApplyCoupon_confirmation, valueFollowedBy.
    destruct Htype as [[-> ->] | [-> ->]]; reflexivity.
Qed.

Lemma coupon_label_witness :
  let coupons := [coupon_amount; coupon_percentage] in
  nth_error coupons 0 = Some coupon_amount
  /\ ((Coupon.discountType coupon_amount = "amount" /\ "원" = "원")
      \/ (Coupon.discountType coupon_amount = "percentage" /\ "원" = "%"))
  /\ (exists opt,
        nth_error (ApplyCoupon_options coupons) 1 = Some opt
        /\ text opt = Coupon.name coupon_amount ++ " - "
                      ++ valueFollowedBy coupon_amount "원")
  /\ ApplyCoupon_confirmation (Some coupon_amount)
     = Some ("적용된 쿠폰: " ++ Coupon.name coupon_amount ++ "("
             ++ valueFollowedBy coupon_amount "원" ++ " 할인)").
Proof.
  intros coupons.
  assert (Hnth : nth_error coupons 0 = Some coupon_amount) by reflexivity.
  assert (Htype :
            (Coupon.discountType coupon_amount = "amount" /\ "원" = "원")
            \/ (Coupon.discountType coupon_amount = "percentage" /\ "원" = "%"))
    by (left; split; reflexivity).
  split; [ exact Hnth | split; [ exact Htype | ] ].
  exact (coupon_label coupons 0 coupon_amount "원" Hnth Htype).
Defined.

(** The scenario of the specification: value 1000 of type "amount" renders
    "1000원", value 10 of type "percentage" renders "10%". *)
Example coupon_label_scenario :
  valueFollowedBy coupon_amount "원" = "1000원"
  /\ valueFollowedBy coupon_percentage "%" = "10%"
  /\ map text (ApplyCoupon_options [coupon_amount; coupon_percentage])
     = ["쿠폰 선택"; "1000원 할인 쿠폰 - 1000원"; "10% 할인 쿠폰 - 10%"]
  /\ ApplyCoupon_confirmation (Some coupon_amount)
     = Some "적용된 쿠폰: 1000원 할인 쿠폰(1000원 할인)"
  /\ ApplyCoupon_confirmation (Some coupon_percentage)
     = Some "적용된 쿠폰: 10% 할인 쿠폰(10% 할인)".
Proof. repeat split; reflexivity. Qed.

(** * Further properties of the component *)

(** ** Advertised and applied discount *)

Lemma reduce_max_incl (ds ds' : list Discount.t) :
  incl ds ds' -> (getMaxDiscount ds <= getMaxDiscount ds')%Qc.
Proof.
  intros Hincl. unfold getMaxDiscount at 1.
  destruct (reduce_max_attained ds (Q2Qc 0)) as [E | [d [Hin E]]].
  - rewrite E. apply reduce_max_ge_init.
  - rewrite <- E. apply reduce_max_ge_rate. apply Hincl. exact Hin.
Qed.

Lemma qualifyingTiers_incl (item : CartItem.t) :
  incl (qualifyingTiers item) (Product.discounts (CartItem.product item)).
Proof.
  intros d Hin. unfold qualifyingTiers in Hin.
  apply filter_In in Hin. apply Hin.
Qed.

Lemma qualifyingTiers_In (item : CartItem.t) (d : Discount.t) :
  In d (qualifyingTiers item)
  <-> In d (Product.discounts (CartItem.product item))
      /\ Discount.quantity d <= CartItem.quantity item.
Proof.
  unfold qualifyingTiers. rewrite filter_In, Z.leb_le. reflexivity.
Qed.

Lemma getMaxDiscount_number (ds : list WithNaN.Discount.t) :
  (forall d, In d ds -> WithNaN.Discount.rate d <> None) ->
  exists m, WithNaN.getMaxDiscount ds = Some m.
Proof.
  intros Hall. unfold WithNaN.getMaxDiscount.
  destruct (fold_left _ ds (Some (Q2Qc 0))) as [m |] eqn:E.
  - exists m. reflexivity.
  - apply reduce_NaN_iff in E. destruct E as [d [Hin E]].
    elim (Hall d Hin E).
Qed.

Lemma getMaxDiscount_number_incl (ds ds' : list WithNaN.Discount.t) (m m' : Qc) :
  incl ds ds' ->
  WithNaN.getMaxDiscount ds = Some m ->
  WithNaN.getMaxDiscount ds' = Some m' ->
  (m <= m')%Qc.
Proof.
  unfold WithNaN.getMaxDiscount. intros Hincl E E'.
  destruct (reduce_number ds' _ _ E') as [H0 [Hall _]].
  destruct (reduce_number ds _ _ E) as [_ [_ [-> | [d [Hin Hd]]]]].
  - exact H0.
  - destruct (Hall d (Hincl d Hin)) as [x [Hx Hle]]. congruence.
Qed.

(** X1.  When no tier rate of the product is [NaN], the discount applied to
    a cart line and the maximum advertised for its product are both
    numbers, and the applied one is <= the advertised one. *)
Theorem applied_le_advertised_numbers (item : WithNaN.CartItem.t) :
  (forall d, In d (WithNaN.Product.discounts (WithNaN.CartItem.product item)) ->
             WithNaN.Discount.rate d <> None) ->
  exists applied advertised,
    WithNaN.getAppliedDiscount item = Some applied
    /\ WithNaN.getMaxDiscount
         (WithNaN.Product.discounts (WithNaN.CartItem.product item))
       = Some advertised
    /\ (applied <= advertised)%Qc.
Proof.
  intros Hall.
  destruct (getMaxDiscount_number _ Hall) as [m Hm].
  assert (Hq : forall d,
            In d (filter (fun d => WithNaN.geb (WithNaN.CartItem.quantity item)
                                               (WithNaN.Discount.quantity d))
                         (WithNaN.Product.discounts
                            (WithNaN.CartItem.product item))) ->
            WithNaN.Discount.rate d <> None)
    by (intros d Hin; apply filter_In in Hin; apply Hall, Hin).
  destruct (getMaxDiscount_number _ Hq) as [a Ha].
  exists a, m. split; [ | split; [ exact Hm | ] ].
  - unfold WithNaN.getAppliedDiscount. cbv zeta.
    rewrite applyTier_NaN_fold_filter. exact Ha.
  - apply (getMaxDiscount_number_incl _ _ a m) with (2 := Ha) (3 := Hm).
    intros d Hin. apply filter_In in Hin. apply Hin.
Qed.

Lemma applied_le_advertised_numbers_witness :
  let item := WithNaN.CartItem.mk (liftProduct product_p1) (Some 4) in
  (forall d, In d (WithNaN.Product.discounts (WithNaN.CartItem.product item)) ->
             WithNaN.Discount.rate d <> None)
  /\ exists applied advertised,
       WithNaN.getAppliedDiscount item = Some applied
       /\ WithNaN.getMaxDiscount
            (WithNaN.Product.discounts (WithNaN.CartItem.product item))
          = Some advertised
       /\ (applied <= advertised)%Qc.
Proof.
  intros item.
  assert (Hall : forall d,
            In d (WithNaN.Product.discounts (WithNaN.CartItem.product item)) ->
            WithNaN.Discount.rate d <> None)
    by (intros d [<- | [<- | []]]; discriminate).
  split; [ exact Hall | exact (applied_le_advertised_numbers item Hall) ].
Defined.

(** With a [NaN] rate on a tier whose threshold is not met, the applied
    discount is 0 and the advertised maximum is [NaN]. *)
Example applied_and_advertised_NaN :
  WithNaN.getAppliedDiscount (WithNaN.CartItem.mk product_NaN_rate (Some 0))
  = Some (Q2Qc 0)
  /\ WithNaN.getMaxDiscount (WithNaN.Product.discounts product_NaN_rate) = None.
Proof. split; reflexivity. Qed.

(** X2.  Once the quantity reaches every threshold of the product, the
    applied discount is the advertised maximum. *)
Theorem applied_eq_advertised (item : CartItem.t) :
  (forall d, In d (Product.discounts (CartItem.product item)) ->
             Discount.quantity d <= CartItem.quantity item) ->
  getAppliedDiscount item
  = getMaxDiscount (Product.discounts (CartItem.product item)).
Proof.
  intros Hall. rewrite getAppliedDiscount_qualifying.
  apply Qcle_antisym.
  - apply reduce_max_incl, qualifyingTiers_incl.
  - apply reduce_max_incl. intros d Hin.
    apply qualifyingTiers_In. split; [ exact Hin | apply Hall, Hin ].
Qed.

Lemma applied_eq_advertised_witness :
  let item := CartItem.mk product_p1 7 in
  (forall d, In d (Product.discounts (CartItem.product item)) ->
             Discount.quantity d <= CartItem.quantity item)
  /\ getAppliedDiscount item
     = getMaxDiscount (Product.discounts (CartItem.product item)).
Proof.
  intros item.
  assert (Hall : forall d, In d (Product.discounts (CartItem.product item)) ->
                           Discount.quantity d <= CartItem.quantity item)
    by (intros d [<- | [<- | []]]; simpl; lia).
  split; [ exact Hall | exact (applied_eq_advertised item Hall) ].
Defined.

(** X3.  If every tier of one list also occurs in another list and no rate
    of the other list is [NaN], both advertised maxima are numbers and the
    first is <= the second: adding tiers with numeric rates never lowers
    the advertised maximum. *)
Theorem getMaxDiscount_incl_numbers (tiers tiers' : list WithNaN.Discount.t) :
  incl tiers tiers' ->
  (forall d, In d tiers' -> WithNaN.Discount.rate d <> None) ->
  exists m m',
    WithNaN.getMaxDiscount tiers = Some m
    /\ WithNaN.getMaxDiscount tiers' = Some m'
    /\ (m <= m')%Qc.
Proof.
  intros Hincl Hall.
  destruct (getMaxDiscount_number tiers') as [m' Hm']; [ exact Hall | ].
  destruct (getMaxDiscount_number tiers) as [m Hm].
  { intros d Hin. apply Hall, Hincl, Hin. }
  exists m, m'. split; [ exact Hm | split; [ exact Hm' | ] ].
  exact (getMaxDiscount_number_incl _ _ _ _ Hincl Hm Hm').
Qed.

Lemma getMaxDiscount_incl_numbers_witness :
  let tiers := [liftDiscount (Discount.mk 5 (Q2Qc (2 # 10)))] in
  let tiers' := map liftDiscount tiers_2_5 in
  incl tiers tiers'
  /\ (forall d, In d tiers' -> WithNaN.Discount.rate d <> None)
  /\ exists m m',
       WithNaN.getMaxDiscount tiers = Some m
       /\ WithNaN.getMaxDiscount tiers' = Some m'
       /\ (m <= m')%Qc.
Proof.
  intros tiers tiers'.
  assert (Hincl : incl tiers tiers')
    by (intros d [<- | []]; right; left; reflexivity).
  assert (Hall : forall d, In d tiers' -> WithNaN.Discount.rate d <> None)
    by (intros d [<- | [<- | []]]; discriminate).
  split; [ exact Hincl | split; [ exact Hall | ] ].
  exact (getMaxDiscount_incl_numbers tiers tiers' Hincl Hall).
Defined.

Lemma reduce_max_Math_max (ds : list Discount.t) (a b : Qc) :
  fold_left (fun max d => Math_max max (Discount.rate d)) ds (Math_max a b)
  = Math_max a
      (fold_left (fun max d => Math_max max (Discount.rate d)) ds b).
Proof.
  revert b. induction ds as [| d ds IH]; intros b; simpl.
  - reflexivity.
  - rewrite Math_max_assoc. apply IH.
Qed.

Lemma Math_max_0_r (a : Qc) : (0 <= a)%Qc -> Math_max a (Q2Qc 0) = a.
Proof.
  intros Ha. apply Qcle_antisym.
  - apply Math_max_lub; [ apply Qcle_refl | exact Ha ].
  - apply Math_max_l.
Qed.

(** X4.  The maximum advertised for two tier lists put one after the other
    is the larger of their two maxima. *)
Theorem getMaxDiscount_app (tiers1 tiers2 : list Discount.t) :
  getMaxDiscount (tiers1 ++ tiers2)%list
  = Math_max (getMaxDiscount tiers1) (getMaxDiscount tiers2).
Proof.
  unfold getMaxDiscount. rewrite fold_left_app.
  rewrite <- reduce_max_Math_max.
  rewrite Math_max_0_r by apply reduce_max_ge_init.
  reflexivity.
Qed.

(** X5.  The advertised maximum does not depend on the order in which the
    tiers are listed. *)
Theorem getMaxDiscount_Permutation (tiers tiers' : list Discount.t) :
  Permutation tiers tiers' -> getMaxDiscount tiers = getMaxDiscount tiers'.
Proof.
  intros Hperm. apply Qcle_antisym; apply reduce_max_incl; intros d Hin.
  - apply (Permutation_in d Hperm Hin).
  - apply (Permutation_in d (Permutation_sym Hperm) Hin).
Qed.

Lemma getMaxDiscount_Permutation_witness :
  Permutation tiers_2_5 (List.rev tiers_2_5)
  /\ getMaxDiscount tiers_2_5 = getMaxDiscount (List.rev tiers_2_5).
Proof.
  assert (Hperm : Permutation tiers_2_5 (List.rev tiers_2_5))
    by (simpl; apply perm_swap).
  split; [ exact Hperm | exact (getMaxDiscount_Permutation _ _ Hperm) ].
Defined.



Lemma Qc_gtb_lt (a b : Qc) : Qc_gtb a b = true <-> (b < a)%Qc.
Proof.
  unfold Qc_gtb. rewrite (Qcgt_alt a b).
  destruct (a ?= b)%Qc; split; congruence.
Qed.

(** X7.  The applied-discount note of a cart line is rendered exactly when
    no tier with its threshold met has rate [NaN] and some tier with its
    threshold met has a rate above 0 (a threshold is met when it and the
    quantity are numbers and the threshold is <= the quantity). *)
Theorem showsAppliedDiscount_iff (item : WithNaN.CartItem.t) :
  WithNaN.showsAppliedDiscount item = true
  <-> (forall d,
         In d (WithNaN.Product.discounts (WithNaN.CartItem.product item)) ->
         WithNaN.geb (WithNaN.CartItem.quantity item)
                     (WithNaN.Discount.quantity d) = true ->
         WithNaN.Discount.rate d <> None)
      /\ (exists d r,
            In d (WithNaN.Product.discounts (WithNaN.CartItem.product item))
            /\ WithNaN.geb (WithNaN.CartItem.quantity item)
                           (WithNaN.Discount.quantity d) = true
            /\ WithNaN.Discount.rate d = Some r
            /\ (0 < r)%Qc).
Proof.
  unfold WithNaN.showsAppliedDiscount, WithNaN.getAppliedDiscount. cbv zeta.
  rewrite applyTier_NaN_fold_filter.
  set (qs := filter (fun d => WithNaN.geb (WithNaN.CartItem.quantity item)
                                          (WithNaN.Discount.quantity d))
                    (WithNaN.Product.discounts (WithNaN.CartItem.product item))).
  assert (Hqs : forall d, In d qs <->
            In d (WithNaN.Product.discounts (WithNaN.CartItem.product item))
            /\ WithNaN.geb (WithNaN.CartItem.quantity item)
                           (WithNaN.Discount.quantity d) = true)
    by (intros d; apply filter_In).
  destruct (fold_left _ qs (Some (Q2Qc 0))) as [a |] eqn:E; simpl.
  - rewrite Qc_gtb_lt.
    destruct (reduce_number qs _ _ E) as [_ [Hall Hatt]]. split.
    + intros Hpos. split.
      * intros d Hin Hq Hnan.
        destruct (Hall d (proj2 (Hqs d) (conj Hin Hq))) as [x [Hx _]].
        congruence.
      * destruct Hatt as [-> | [d [Hin Hd]]].
        -- elim (Qclt_not_eq _ _ Hpos). reflexivity.
        -- apply Hqs in Hin. exists d, a. repeat split; try apply Hin; assumption.
    + intros [_ [d [r [Hin [Hq [Hr Hpos]]]]]].
      destruct (Hall d (proj2 (Hqs d) (conj Hin Hq))) as [x [Hx Hle]].
      apply (Qclt_le_trans _ _ _ Hpos). congruence.
  - split; [ intros H; discriminate H | ].
    intros [Hnone _]. exfalso.
    apply reduce_NaN_iff in E. destruct E as [d [Hin Hd]].
    apply Hqs in Hin. exact (Hnone d (proj1 Hin) (proj2 Hin) Hd).
Qed.

(** Below the first threshold, at it, with no tiers, with a rate of 0 only,
    and with a met tier of rate [NaN] beside one of rate 0.5. *)
Example showsAppliedDiscount_scenario :
  map WithNaN.showsAppliedDiscount
      [liftCartItem (CartItem.mk product_p1 1);
       liftCartItem (CartItem.mk product_p1 2);
       liftCartItem (CartItem.mk product_p2 9);
       liftCartItem
         (CartItem.mk (Product.mk "p" "n" 1 1 [Discount.mk 1 (Q2Qc 0)]) 3);
       WithNaN.CartItem.mk product_NaN_rate (Some 1)]
  = [false; true; false; false; false].
Proof. reflexivity. Qed.

(** X8.  A bound >= 0 on all the rates of a product bounds both its
    advertised maximum and every applied discount; with rates up to 1,
    neither exceeds 100%. *)
Theorem discounts_bounded (item : CartItem.t) (bound : Qc) :
  (forall d, In d (Product.discounts (CartItem.product item)) ->
             (Discount.rate d <= bound)%Qc) ->
  (0 <= bound)%Qc ->
  (getMaxDiscount (Product.discounts (CartItem.product item)) <= bound)%Qc
  /\ (getAppliedDiscount item <= bound)%Qc.
Proof.
  intros Hb H0.
  assert (Hmax : (getMaxDiscount (Product.discounts (CartItem.product item))
                  <= bound)%Qc).
  { unfold getMaxDiscount.
    destruct (reduce_max_attained (Product.discounts (CartItem.product item))
                                  (Q2Qc 0)) as [E | [d [Hin E]]].
    - rewrite E. exact H0.
    - rewrite <- E. apply Hb, Hin. }
  split; [ exact Hmax | ].
  apply (Qcle_trans _ (getMaxDiscount (Product.discounts (CartItem.product item)))).
  - rewrite getAppliedDiscount_qualifying.
    apply reduce_max_incl, qualifyingTiers_incl.
  - exact Hmax.
Qed.

Lemma discounts_bounded_witness :
  let item := CartItem.mk product_p1 5 in
  (forall d, In d (Product.discounts (CartItem.product item)) ->
             (Discount.rate d <= 1)%Qc)
  /\ (0 <= 1)%Qc
  /\ (getMaxDiscount (Product.discounts (CartItem.product item)) <= 1)%Qc
  /\ (getAppliedDiscount item <= 1)%Qc.
Proof.
  intros item.
  assert (Hb : forall d, In d (Product.discounts (CartItem.product item)) ->
                         (Discount.rate d <= 1)%Qc)
    by (intros d Hin; apply (fractionRates_tiers_2_5 d Hin)).
  assert (H0 : (0 <= 1)%Qc) by (vm_compute; discriminate).
  split; [ exact Hb | split; [ exact H0 | ] ].
  exact (discounts_bounded item 1%Qc Hb H0).
Defined.

(** ** Stock and the add-to-cart button *)








(** X12.  A product card is in one of three states.  Remaining stock > 0:
    button enabled, blue, labelled add-to-cart, stock text green.
    Remaining stock <= 0: button disabled, grey with the not-allowed
    cursor, labelled sold out, stock text red.  Remaining stock [NaN]: the
    button is grey and labelled sold out and the stock text red, yet the
    button is not disabled.  So the indicators agree whenever the remaining
    stock is a number. *)
Theorem card_indicators_three_states (cart : list WithNaN.CartItem.t)
    (product : WithNaN.Product.t) :
  let shown := WithNaN.cardIndicators cart product in
  (exists r, WithNaN.getRemainingStock cart product = Some r /\ r > 0
     /\ WithNaN.buttonDisabled shown = false
     /\ WithNaN.buttonLabel shown = "장바구니에 추가"
     /\ WithNaN.buttonClassName shown
        = "w-full rounded px-3 py-1 bg-blue-500 text-white hover:bg-blue-600"
     /\ WithNaN.stockClassName shown = "font-medium text-green-600")
  \/ (exists r, WithNaN.getRemainingStock cart product = Some r /\ r <= 0
        /\ WithNaN.buttonDisabled shown = true
        /\ WithNaN.buttonLabel shown = "품절"
        /\ WithNaN.buttonClassName shown
           = "w-full rounded px-3 py-1 cursor-not-allowed bg-gray-300 text-gray-500"
        /\ WithNaN.stockClassName shown = "font-medium text-red-600")
  \/ (WithNaN.getRemainingStock cart product = None
      /\ WithNaN.buttonDisabled shown = false
      /\ WithNaN.buttonLabel shown = "품절"
      /\ WithNaN.buttonClassName shown
         = "w-full rounded px-3 py-1 cursor-not-allowed bg-gray-300 text-gray-500"
      /\ WithNaN.stockClassName shown = "font-medium text-red-600").
Proof.
  unfold WithNaN.cardIndicators. cbv zeta.
  cbn [WithNaN.buttonDisabled WithNaN.buttonLabel WithNaN.buttonClassName
       WithNaN.stockClassName].
  destruct (WithNaN.getRemainingStock cart product) as [r |];
    cbn [WithNaN.gtb WithNaN.leb].
  - rewrite Z.gtb_ltb.
    destruct (Z.leb_spec r 0) as [Hle | Hgt];
      destruct (Z.ltb_spec 0 r) as [Hlt | Hge]; try lia.
    + right. left. exists r. split; [ reflexivity | ].
      split; [ exact Hle | repeat split ].
    + left. exists r. split; [ reflexivity | ].
      split; [ lia | repeat split ].
  - right. right. repeat split.
Qed.

(** Stock 3 with 3 in the cart, stock 5 with no line, and a stock that is
    [NaN]. *)
Example card_indicators_scenarios :
  map (fun p =>
         let shown := WithNaN.cardIndicators
                        [liftCartItem (CartItem.mk product_p1 3)] p in
         (WithNaN.getRemainingStock [liftCartItem (CartItem.mk product_p1 3)] p,
          WithNaN.buttonDisabled shown, WithNaN.buttonLabel shown))
      [liftProduct product_p1; liftProduct product_p2; product_NaN_stock]
  = [(Some 0, true, "품절"); (Some 5, false, "장바구니에 추가");
     (None, false, "품절")].
Proof. reflexivity. Qed.

(** ** Keys and controls of the two panes *)

(** X13.  The catalog pane renders one card per filtered product, in order
    and keyed by the product id; the cart pane renders one line per cart
    item, in order and keyed by the product id, so the keys of the cart
    lines are pairwise distinct exactly when the cart has one line per
    product id. *)
Theorem pane_keys (cart : list CartItem.t) (filteredProducts : list Product.t) :
  map card_key (catalogPane cart filteredProducts)
  = map Product.id filteredProducts
  /\ map line_key (cartPane cart)
     = map (fun item => Product.id (CartItem.product item)) cart
  /\ (NoDup (map line_key (cartPane cart)) <-> oneLinePerProduct cart).
Proof.
  assert (Hlines : map line_key (cartPane cart)
                   = map (fun item => Product.id (CartItem.product item)) cart).
  { unfold cartPane. rewrite map_map. reflexivity. }
  split; [ | split ].
  - unfold catalogPane. rewrite map_map. reflexivity.
  - exact Hlines.
  - rewrite Hlines. reflexivity.
Qed.

(** X14.  Every line of the cart pane belongs to a cart item: its delete
    control asks the Cart Aggregator to remove that item's product id and
    is never disabled, all three controls of the line address the product
    id the line is keyed by, and the discount it annotates is the one
    [getAppliedDiscount] gives for that item. *)
Theorem cartPane_delete_control (cart : list CartItem.t) (line : CartLine) :
  In line (cartPane cart) ->
  exists item,
    In item cart
    /\ line_key line = Product.id (CartItem.product item)
    /\ onClick (line_delete line) = removeFromCart (line_key line)
    /\ disabled (line_delete line) = false
    /\ (exists q, onClick (line_decrement line)
                  = updateQuantity (line_key line) q)
    /\ (exists q, onClick (line_increment line)
                  = updateQuantity (line_key line) q)
    /\ line_appliedDiscount line = getAppliedDiscount item.
Proof.
  unfold cartPane. intros Hin. apply in_map_iff in Hin.
  destruct Hin as [item [<- Hin]].
  exists item. split; [ exact Hin | ].
  repeat (split; [ reflexivity | ]).
  split; [ eexists; reflexivity | ].
  split; [ eexists; reflexivity | reflexivity ].
Qed.

Lemma cartPane_delete_control_witness :
  let cart := [CartItem.mk product_p1 2] in
  let line := renderCartLine (CartItem.mk product_p1 2) in
  In line (cartPane cart)
  /\ exists item,
       In item cart
       /\ line_key line = Product.id (CartItem.product item)
       /\ onClick (line_delete line) = removeFromCart (line_key line)
       /\ disabled (line_delete line) = false
       /\ (exists q, onClick (line_decrement line)
                     = updateQuantity (line_key line) q)
       /\ (exists q, onClick (line_increment line)
                     = updateQuantity (line_key line) q)
       /\ line_appliedDiscount line = getAppliedDiscount item.
Proof.
  intros cart line.
  assert (Hin : In line (cartPane cart)) by (left; reflexivity).
  split; [ exact Hin | exact (cartPane_delete_control cart line Hin) ].
Defined.

(** ** Option values *)

Lemma Number_toString_inj (n m : Z) :
  Number_toString n = Number_toString m -> n = m.
Proof.
  intros E. apply (f_equal parseInt) in E.
  rewrite !parseInt_Number_toString in E. congruence.
Qed.

(** X15.  An integer of magnitude below 2^53, written as an option value
    and read back with [parseInt], comes back unchanged, negative ones
    included; hence two different such integers are never written as the
    same value. *)
Theorem option_value_round_trip_safe (n m : Z) :
  Z.abs n < 2 ^ 53 ->
  Z.abs m < 2 ^ 53 ->
  parseInt (Number_toString n) = Some n
  /\ (Number_toString n = Number_toString m -> n = m).
Proof.
  intros _ _. split.
  - apply parseInt_Number_toString.
  - apply Number_toString_inj.
Qed.

Lemma option_value_round_trip_safe_witness :
  Z.abs 9007199254740991 < 2 ^ 53
  /\ Z.abs (-12) < 2 ^ 53
  /\ parseInt (Number_toString 9007199254740991) = Some 9007199254740991
  /\ (Number_toString 9007199254740991 = Number_toString (-12) ->
      9007199254740991 = -12).
Proof.
  assert (Hn : Z.abs 9007199254740991 < 2 ^ 53) by (vm_compute; reflexivity).
  assert (Hm : Z.abs (-12) < 2 ^ 53) by (vm_compute; reflexivity).
  split; [ exact Hn | split; [ exact Hm | ] ].
  exact (option_value_round_trip_safe 9007199254740991 (-12) Hn Hm).
Defined.

Lemma NoDup_map_injective {A B : Type} (f : A -> B) (l : list A) :
  (forall x y, f x = f y -> x = y) -> NoDup l -> NoDup (map f l).
Proof.
  intros Hinj Hnd. induction Hnd as [| x l Hnotin _ IH]; simpl.
  - constructor.
  - constructor; [ | exact IH ].
    intros Hin. apply in_map_iff in Hin. destruct Hin as [y [Hy Hin]].
    apply Hinj in Hy. subst y. exact (Hnotin Hin).
Qed.

Lemma NoDup_blank_then_positions (n : nat) :
  NoDup ("" :: map (fun i => Number_toString (Z.of_nat i)) (seq 0 n)).
Proof.
  constructor.
  - intros Hin. apply in_map_iff in Hin. destruct Hin as [i [Hi _]].
    apply (f_equal parseInt) in Hi.
    rewrite parseInt_Number_toString in Hi. discriminate Hi.
  - apply NoDup_map_injective.
    + intros x y E. apply Number_toString_inj in E. lia.
    + apply seq_NoDup.
Qed.

Lemma handleChange_values (memberships : list Membership.t)
    (coupons : list Coupon.t) :
  map value (ApplyMembership_options memberships)
  = "" :: map (fun i => Number_toString (Z.of_nat i))
              (seq 0 (List.length memberships))
  /\ map value (ApplyCoupon_options coupons)
     = "" :: map (fun i => Number_toString (Z.of_nat i))
                 (seq 0 (List.length coupons)).
Proof.
  split.
  - unfold ApplyMembership_options, mapi. simpl. f_equal.
    apply map_value_mapFrom.
  - unfold ApplyCoupon_options, mapi. simpl. f_equal.
    apply map_value_mapFrom.
Qed.

(** X16.  No two options of a selection widget carry the same value: the
    blank value occurs once, in front, and every position is written
    differently.  The number of options is one more than the number of
    memberships (respectively coupons). *)
Theorem options_values_distinct (memberships : list Membership.t)
    (coupons : list Coupon.t) :
  NoDup (map value (ApplyMembership_options memberships))
  /\ List.length (ApplyMembership_options memberships)
     = S (List.length memberships)
  /\ NoDup (map value (ApplyCoupon_options coupons))
  /\ List.length (ApplyCoupon_options coupons) = S (List.length coupons).
Proof.
  destruct (handleChange_values memberships coupons) as [Hm Hc].
  repeat split.
  - rewrite Hm. apply NoDup_blank_then_positions.
  - rewrite <- (length_map value), Hm. simpl.
    rewrite length_map, length_seq. reflexivity.
  - rewrite Hc. apply NoDup_blank_then_positions.
  - rewrite <- (length_map value), Hc. simpl.
    rewrite length_map, length_seq. reflexivity.
Qed.

(** ** What the change handlers pass on, and the labels *)

Lemma arrayGet_null_or_member {A : Type} (xs : list A) (index : option Z) :
  arrayGet xs index = None
  \/ exists x, arrayGet xs index = Some x /\ In x xs.
Proof.
  destruct (arrayGet xs index) as [x |] eqn:E; [ right | left; reflexivity ].
  exists x. split; [ reflexivity | ].
  unfold arrayGet in E. destruct index as [i |]; [ | discriminate E ].
  destruct (i <? 0); [ discriminate E | ].
  apply (nth_error_In xs (Z.to_nat i)). exact E.
Qed.

(** X17.  Whatever string reaches a change handler, it calls its callback
    with [null] or with an element of the array it was given: it never
    passes a membership or coupon that is not in the list. *)
Theorem handleChange_null_or_member {R : Type}
    (memberships : list Membership.t) (coupons : list Coupon.t)
    (onMembershipChange : option Membership.t -> R)
    (onCouponChange : option Coupon.t -> R) (targetValue : string) :
  (ApplyMembership_handleChange memberships onMembershipChange targetValue
   = onMembershipChange None
   \/ exists m, In m memberships
        /\ ApplyMembership_handleChange memberships onMembershipChange
             targetValue
           = onMembershipChange (Some m))
  /\ (ApplyCoupon_handleChange coupons onCouponChange targetValue
      = onCouponChange None
      \/ exists c, In c coupons
           /\ ApplyCoupon_handleChange coupons onCouponChange targetValue
              = onCouponChange (Some c)).
Proof.
  unfold ApplyMembership_handleChange, ApplyCoupon_handleChange. split.
  - destruct (arrayGet_null_or_member memberships (parseInt targetValue))
      as [E | [m [E Hin]]]; rewrite E.
    + left. reflexivity.
    + right. exists m. split; [ exact Hin | reflexivity ].
  - destruct (arrayGet_null_or_member coupons (parseInt targetValue))
      as [E | [c [E Hin]]]; rewrite E.
    + left. reflexivity.
    + right. exists c. split; [ exact Hin | reflexivity ].
Qed.

(** X18.  Only the type "amount" gets the currency suffix: a coupon of any
    other type, "percentage" or not, is labelled with its value followed by
    the percent sign, in the option list and in the confirmation line. *)
Theorem coupon_label_not_amount (coupons : list Coupon.t) (i : nat)
    (coupon : Coupon.t) :
  nth_error coupons i = Some coupon ->
  Coupon.discountType coupon <> "amount" ->
  (exists opt,
     nth_error (ApplyCoupon_options coupons) (S i) = Some opt
     /\ text opt = Coupon.name coupon ++ " - " ++ valueFollowedBy coupon "%")
  /\ ApplyCoupon_confirmation (Some coupon)
     = Some ("적용된 쿠폰: " ++ Coupon.name coupon ++ "("
             ++ valueFollowedBy coupon "%" ++ " 할인)").
Proof.
  intros Hnth Htype. apply String.eqb_neq in Htype. split.
  - eexists. split.
    + unfold ApplyCoupon_options, mapi. cbn [nth_error].
      rewrite nth_error_mapFrom, Hnth. reflexivity.
    + cbn [text]. rewrite Htype. reflexivity.
  - unfold ApplyCoupon_confirmation. rewrite Htype. reflexivity.
Qed.

Lemma coupon_label_not_amount_witness :
  let coupon := Coupon.mk "배송비 쿠폰" "SHIP" "shipping" 3 in
  let coupons := [coupon_amount; coupon] in
  nth_error coupons 1 = Some coupon
  /\ Coupon.discountType coupon <> "amount"
  /\ (exists opt,
        nth_error (ApplyCoupon_options coupons) 2 = Some opt
        /\ text opt = Coupon.name coupon ++ " - " ++ valueFollowedBy coupon "%")
  /\ ApplyCoupon_confirmation (Some coupon)
     = Some ("적용된 쿠폰: " ++ Coupon.name coupon ++ "("
             ++ valueFollowedBy coupon "%" ++ " 할인)").
Proof.
  intros coupon coupons.
  assert (Hnth : nth_error coupons 1 = Some coupon) by reflexivity.
  assert (Htype : Coupon.discountType coupon <> "amount")
    by (simpl; discriminate).
  split; [ exact Hnth | split; [ exact Htype | ] ].
  exact (coupon_label_not_amount coupons 1 coupon Hnth Htype).
Defined.

(** X19.  The option of a membership sits one place after its position in
    the array (the blank option comes first), carries that position as its
    value and reads name, " - ", discount value, "%"; the confirmation line
    of a selected membership reads its name and, in parentheses, the value
    followed by the percent sign, and no line is rendered for [null]. *)
Theorem membership_label (memberships : list Membership.t) (i : nat)
    (m : Membership.t) :
  nth_error memberships i = Some m ->
  (exists opt,
     nth_error (ApplyMembership_options memberships) (S i) = Some opt
     /\ value opt = Number_toString (Z.of_nat i)
     /\ text opt = Membership.name m ++ " - "
                   ++ Number_toString (Membership.discountValue m) ++ "%")
  /\ ApplyMembership_confirmation (Some m)
     = Some ("적용된 맴버쉽: " ++ Membership.name m ++ "("
             ++ Number_toString (Membership.discountValue m) ++ "% 할인)")
  /\ ApplyMembership_confirmation None = None.
Proof.
  intros Hnth. split; [ | split; reflexivity ].
  eexists. split.
  - unfold ApplyMembership_options, mapi. cbn [nth_error].
    rewrite nth_error_mapFrom, Hnth. reflexivity.
  - split; reflexivity.
Qed.

Lemma membership_label_witness :
  let m := Membership.mk "골드" "GOLD" 5 in
  let memberships := [Membership.mk "실버" "SILVER" 3; m] in
  nth_error memberships 1 = Some m
  /\ (exists opt,
        nth_error (ApplyMembership_options memberships) 2 = Some opt
        /\ value opt = Number_toString (Z.of_nat 1)
        /\ text opt = Membership.name m ++ " - "
                      ++ Number_toString (Membership.discountValue m) ++ "%")
  /\ ApplyMembership_confirmation (Some m)
     = Some ("적용된 맴버쉽: " ++ Membership.name m ++ "("
             ++ Number_toString (Membership.discountValue m) ++ "% 할인)")
  /\ ApplyMembership_confirmation None = None.
Proof.
  intros m memberships.
  assert (Hnth : nth_error memberships 1 = Some m) by reflexivity.
  split; [ exact Hnth | exact (membership_label memberships 1 m Hnth) ].
Defined.

Example membership_label_scenario :
  map text (ApplyMembership_options
              [Membership.mk "실버" "SILVER" 3; Membership.mk "골드" "GOLD" 5])
  = ["회원 등급 선택"; "실버 - 3%"; "골드 - 5%"]
  /\ ApplyMembership_confirmation (Some (Membership.mk "골드" "GOLD" 5))
     = Some "적용된 맴버쉽: 골드(5% 할인)".
Proof. split; reflexivity. Qed.

(** ** The cart is read by id and quantity only *)

Lemma quantityOrZero_find_ext (cart cart' : list CartItem.t)
    (product : Product.t) :
  map (fun item => (Product.id (CartItem.product item), CartItem.quantity item))
      cart
  = map (fun item => (Product.id (CartItem.product item), CartItem.quantity item))
        cart' ->
  quantityOrZero (findCartItem cart product)
  = quantityOrZero (findCartItem cart' product).
Proof.
  revert cart'. induction cart as [| line cart IH]; intros [| line' cart'];
    simpl; intros H; try discriminate H; [ reflexivity | ].
  injection H as Hid Hq Hrest.
  unfold findCartItem in *. simpl. rewrite Hid.
  destruct (String.eqb (Product.id (CartItem.product line'))
                       (Product.id product)).
  - rewrite !quantityOrZero_Some. exact Hq.
  - apply IH. exact Hrest.
Qed.

(** X21.  The remaining stock reads the cart only through the product ids
    and quantities of its lines: two carts that agree on these give the
    same remaining stock, whatever product data (such as an older stock
    figure) their lines carry; the stock counted is the one of the product
    passed in. *)
Theorem getRemainingStock_reads_id_and_quantity (cart cart' : list CartItem.t)
    (product : Product.t) :
  map (fun item => (Product.id (CartItem.product item), CartItem.quantity item))
      cart
  = map (fun item => (Product.id (CartItem.product item), CartItem.quantity item))
        cart' ->
  getRemainingStock cart product = getRemainingStock cart' product.
Proof.
  intros H. unfold getRemainingStock.
  rewrite (quantityOrZero_find_ext cart cart' product H). reflexivity.
Qed.

Lemma getRemainingStock_reads_id_and_quantity_witness :
  let cart := [CartItem.mk product_p1 2] in
  let cart' := [CartItem.mk (Product.mk "p1" "상품1 (이전)" 9000 1 []) 2] in
  map (fun item => (Product.id (CartItem.product item), CartItem.quantity item))
      cart
  = map (fun item => (Product.id (CartItem.product item), CartItem.quantity item))
        cart'
  /\ getRemainingStock cart product_p1 = getRemainingStock cart' product_p1.
Proof.
  intros cart cart'.
  assert (H : map (fun item => (Product.id (CartItem.product item),
                                CartItem.quantity item)) cart
              = map (fun item => (Product.id (CartItem.product item),
                                  CartItem.quantity item)) cart')
    by reflexivity.
  split; [ exact H | ].
  exact (getRemainingStock_reads_id_and_quantity cart cart' product_p1 H).
Defined.
